(** * entity.py: the knowledge-gap analyzer, embedded and verified

    The script prompts for a URL, fetches the page, sends its text to the
    Cloud Natural Language client, looks every entity up in the Knowledge
    Graph search API and writes [entities_analysis.txt].

    The embedding follows the script function by function.  The network
    services and the Python functions whose output no statement below
    depends on are inputs of the model:
    - the services answer through a [world] record of response functions;
    - [repr] of a non-string JSON value, the HTML parser and the whitespace
      clean-up of the fetched text are the fields of a [runtime] record.
    Python [str] is modelled by [string], holding the UTF-8 encoding of the
    text; Python [float] by [spec_float], the IEEE 754 values of the Standard
    Library, of which the script only uses [<] and fixed-point formatting. *)

From Stdlib Require Import ZArith NArith List String Ascii Bool Lia.
From Stdlib Require Import SpecFloat DecimalString.
From Stdlib Require Import Sorting.Permutation Sorting.Sorted.
From stdpp Require Import base gmap strings list.
Import ListNotations.
Set Warnings "-register-all".

(** ** Exceptions and the two monads *)

(** A raised Python exception: its class name and [str(e)]. *)
Record pyexn := PyExn { exn_class : string; exn_msg : string }.

(** The outcome of code that may raise. *)
Inductive res (A : Type) : Type :=
| Ok (a : A)
| Raise (e : pyexn).
Arguments Ok {A} a.
Arguments Raise {A} e.

Definition res_bind {A B : Type} (c : res A) (k : A -> res B) : res B :=
  match c with
  | Ok a => k a
  | Raise e => Raise e
  end.

Notation "'let*' x ':=' c 'in' k" :=
  (res_bind c (fun x => k))
  (at level 10, x name, c at level 100, k at level 200, only parsing).

(** Code that also updates a state [S] (the buffer of the open file, or the
    files and the console of the process).  The state reached when an
    exception is raised is kept: what was written stays written. *)
Definition ST (S A : Type) : Type := S -> res A * S.

Definition st_ret {S A : Type} (a : A) : ST S A := fun s => (Ok a, s).

Definition st_bind {S A B : Type} (c : ST S A) (k : A -> ST S B) : ST S B :=
  fun s =>
    match c s with
    | (Ok a, s') => k a s'
    | (Raise e, s') => (Raise e, s')
    end.

Definition st_lift {S A : Type} (c : res A) : ST S A := fun s => (c, s).

Notation "'run*' x ':=' c 'in' k" :=
  (st_bind c (fun x => k))
  (at level 10, x name, c at level 100, k at level 200, only parsing).
Notation "c1 >> c2" :=
  (st_bind c1 (fun _ => c2))
  (at level 60, right associativity, only parsing).

(** [for x in l: body x] *)
Fixpoint st_for {S A : Type} (l : list A) (body : A -> ST S unit) : ST S unit :=
  match l with
  | [] => st_ret tt
  | x :: l' => body x >> st_for l' body
  end.

(** [if c: body] *)
Definition st_when {S : Type} (c : bool) (body : ST S unit) : ST S unit :=
  if c then body else st_ret tt.

(** ** Strings *)

Definition nl : string := String (ascii_of_nat 10) "".

(** [s * n] *)
Fixpoint str_repeat (s : string) (n : nat) : string :=
  match n with
  | O => ""
  | S n' => s +:+ str_repeat s n'
  end.

(** [str(n)] of a non-negative [int]. *)
Definition str_of_nat (n : nat) : string := NilZero.string_of_uint (Nat.to_uint n).
Definition str_of_N (n : N) : string := NilZero.string_of_uint (N.to_uint n).

(** [needle in s] on two strings. *)
Definition str_contains (needle s : string) : bool :=
  match String.index 0 needle s with
  | Some _ => true
  | None => false
  end.

(** Number of bytes of the UTF-8 sequence that starts with byte [c]. *)
Definition utf8_width (c : ascii) : nat :=
  let n := nat_of_ascii c in
  if n <? 192 then 1 else if n <? 224 then 2 else if n <? 240 then 3 else 4.

(** ** Floats *)

(** A double, in the canonical form of [valid_binary 53 1024]; on such
    values [SFltb] is the order of the numbers they denote, and every
    comparison with NaN is false. *)
Definition float : Type := spec_float.

(** [x < y] *)
Definition float_lt (x y : float) : bool := SFltb x y.

Definition is_nan (x : float) : bool :=
  match x with
  | S754_nan => true
  | _ => false
  end.

Definition digit_char (d : N) : ascii := ascii_of_N (48 + d).

(** The last [k] decimal digits of [n], most significant first. *)
Fixpoint fixed_digits (k : nat) (n : N) : string :=
  match k with
  | O => ""
  | S k' => fixed_digits k' (n / 10) +:+ String (digit_char (n mod 10)) ""
  end.

(** [m * 2^e * 10^prec] rounded to the nearest integer, ties to even: the
    correctly rounded conversion of [format]. *)
Definition scaled_round (prec : nat) (m : positive) (e : Z) : N :=
  let p := (N.pos m * 10 ^ N.of_nat prec)%N in
  match e with
  | Z0 => p
  | Zpos k => (p * 2 ^ N.pos k)%N
  | Zneg k =>
      let d := (2 ^ N.pos k)%N in
      let q := (p / d)%N in
      let r := (p mod d)%N in
      match (2 * r ?= d)%N with
      | Lt => q
      | Gt => (q + 1)%N
      | Eq => if N.even q then q else (q + 1)%N
      end
  end.

Definition format_scaled (prec : nat) (n : N) : string :=
  let scale := (10 ^ N.of_nat prec)%N in
  str_of_N (n / scale) +:+
  match prec with
  | O => ""
  | _ => "." +:+ fixed_digits prec (n mod scale)
  end.

Definition sign_str (s : bool) : string := if s then "-" else "".

(** [f"{x:.<prec>f}"] *)
Definition format_f (prec : nat) (x : float) : string :=
  match x with
  | S754_nan => "nan"
  | S754_infinity s => sign_str s +:+ "inf"
  | S754_zero s => sign_str s +:+ format_scaled prec 0
  | S754_finite s m e => sign_str s +:+ format_scaled prec (scaled_round prec m e)
  end.

(** ** JSON values, as [response.json()] returns them *)

(** A [dict] is the list of its items in insertion order. *)
Inductive json : Type :=
| JNull
| JBool (b : bool)
| JInt (z : Z)
| JFloat (x : float)
| JStr (s : string)
| JArr (xs : list json)
| JObj (items : list (string * json)).

Fixpoint dict_get {V : Type} (key : string) (items : list (string * V)) : option V :=
  match items with
  | [] => None
  | (k, v) :: items' => if String.eqb k key then Some v else dict_get key items'
  end.

Definition dict_has {V : Type} (key : string) (items : list (string * V)) : bool :=
  match dict_get key items with
  | Some _ => true
  | None => false
  end.

Definition is_str (key : string) (v : json) : bool :=
  match v with
  | JStr s => String.eqb s key
  | _ => false
  end.

(** The message texts stand for those of the interpreter; nothing below
    depends on them. *)
Definition TypeError (msg : string) : pyexn := PyExn "TypeError" msg.
Definition KeyError (msg : string) : pyexn := PyExn "KeyError" msg.
Definition IndexError (msg : string) : pyexn := PyExn "IndexError" msg.

(** [key in v] for a string [key]. *)
Definition py_contains (key : string) (v : json) : res bool :=
  match v with
  | JObj items => Ok (dict_has key items)
  | JArr xs => Ok (existsb (is_str key) xs)
  | JStr s => Ok (str_contains key s)
  | _ => Raise (TypeError "argument is not iterable")
  end.

(** [v[key]] for a string [key]. *)
Definition py_getitem (v : json) (key : string) : res json :=
  match v with
  | JObj items =>
      match dict_get key items with
      | Some x => Ok x
      | None => Raise (KeyError key)
      end
  | JArr _ => Raise (TypeError "list indices must be integers or slices, not str")
  | JStr _ => Raise (TypeError "string indices must be integers, not 'str'")
  | _ => Raise (TypeError "object is not subscriptable")
  end.

(** [v[0]] *)
Definition py_getitem0 (v : json) : res json :=
  match v with
  | JArr (x :: _) => Ok x
  | JArr [] => Raise (IndexError "list index out of range")
  | JStr (String c _ as s) => Ok (JStr (substring 0 (utf8_width c) s))
  | JStr EmptyString => Raise (IndexError "string index out of range")
  | JObj _ => Raise (KeyError "0")
  | _ => Raise (TypeError "object is not subscriptable")
  end.

(** Truth value of [v] in a condition. *)
Definition py_truthy (v : json) : bool :=
  match v with
  | JNull => false
  | JBool b => b
  | JInt z => negb (z =? 0)%Z
  | JFloat x => match x with S754_zero _ => false | _ => true end
  | JStr s => negb (String.eqb s "")
  | JArr xs => match xs with [] => false | _ => true end
  | JObj items => match items with [] => false | _ => true end
  end.

(** ** The libraries the script calls *)

(** [requests]: what a GET returns. *)
Module requests.
Record Response := {
  content : string;      (* response.content *)
  json : res json        (* response.json(): raises on a body that is not JSON *)
}.
End requests.

(** [google.cloud.language_v1]: the messages of the analyzer's responses. *)
Module language_v1.
(** [Entity.Type] *)
Inductive EntityType :=
| UNKNOWN | PERSON | LOCATION | ORGANIZATION | EVENT | WORK_OF_ART
| CONSUMER_GOOD | OTHER | PHONE_NUMBER | ADDRESS | DATE | NUMBER | PRICE.

(** [Entity.Type(t).name] *)
Definition type_name (t : EntityType) : string :=
  match t with
  | UNKNOWN => "UNKNOWN"
  | PERSON => "PERSON"
  | LOCATION => "LOCATION"
  | ORGANIZATION => "ORGANIZATION"
  | EVENT => "EVENT"
  | WORK_OF_ART => "WORK_OF_ART"
  | CONSUMER_GOOD => "CONSUMER_GOOD"
  | OTHER => "OTHER"
  | PHONE_NUMBER => "PHONE_NUMBER"
  | ADDRESS => "ADDRESS"
  | DATE => "DATE"
  | NUMBER => "NUMBER"
  | PRICE => "PRICE"
  end.

Record Sentiment := { magnitude : float; score : float }.

Record EntityMention := { text : string; proper : bool }.

Record Entity := {
  name : string;
  type_ : EntityType;
  metadata : list (string * string);   (* the map field, in iteration order *)
  salience : float;
  mentions : list EntityMention;
  sentiment : Sentiment
}.
End language_v1.

(** ** The world outside the process *)

Record world := {
  (** the line typed at the [input] prompt *)
  stdin_line : string;
  (** [aiplatform.init] and [LanguageServiceClient()] in the constructor *)
  client_init : res unit;
  (** [requests.get(url, params=..., headers=...)] *)
  requests_get :
    string -> list (string * json) -> list (string * string) -> res requests.Response;
  (** [language_client.analyze_entities], the [entities] of its response,
      for a plain-text document with the given content *)
  analyze_entities : string -> res (list language_v1.Entity);
  (** [language_client.analyze_entity_sentiment], likewise *)
  analyze_entity_sentiment : string -> res (list language_v1.Entity)
}.

(** Python functions the script calls whose results are left open: no
    statement below depends on what they return. *)
Record runtime := {
  (** [repr(v)], which an f-string shows for a value that is not a [str] *)
  py_repr : json -> string;
  (** [BeautifulSoup(content, 'html.parser')], the removal of the [script]
      and [style] elements, and [get_text()] *)
  soup_text : string -> res string;
  (** the clean-up of lines 47-49 ([splitlines], [strip], [split], [join]) *)
  clean_text : string -> string
}.

(** ** The data the script builds *)

(** [entity_info['sentiment']] when it is not [None] *)
Record sentiment_info := { magnitude : float; score : float }.

(** The [entity_info] dict.  The key ['knowledge_graph'] is present exactly
    when the field is [Some]. *)
Record entity_info := {
  name : string;
  type : string;
  salience : float;
  metadata : list (string * string);
  mentions : nat;
  sentiment : option sentiment_info;
  knowledge_graph : option json
}.

(** [entity_info['knowledge_graph'] = v] *)
Definition set_knowledge_graph (info : entity_info) (v : json) : entity_info :=
  {| name := name info;
     type := type info;
     salience := salience info;
     metadata := metadata info;
     mentions := mentions info;
     sentiment := sentiment info;
     knowledge_graph := Some v |}.

(** What [analyze_with_vertex] returns. *)
Record vertex_analysis := {
  entities : list language_v1.Entity;
  entity_sentiment : list language_v1.Entity
}.

(** What [analyze_content] returns. *)
Record analysis := {
  url : string;
  entities_data : list entity_info;
  entity_count : nat
}.

(** The process: the files it can see and what it has printed. *)
Record process := {
  files : gmap string string;
  stdout : string
}.

Definition GOOGLE_API_KEY : string := "XXXXXX".
Definition knowledge_graph_endpoint : string :=
  "https://kgsearch.googleapis.com/v1/entities:search".
Definition report_file : string := "entities_analysis.txt".

(** ** [sorted(l, key=key, reverse=True)] *)

(** The built-in sort is stable, also under [reverse=True], and compares
    keys with [<] only.  For keys that [<] orders consistently this fixes its
    result, which the insertion sort below computes: an element moves behind
    a later one only when its key is strictly smaller.  With a NaN among the
    keys the result of the built-in depends on its merging and is not
    modelled: statements on the order assume saliences that are numbers. *)
Section Sorted.
Context {A K : Type} (lt : K -> K -> bool) (key : A -> K).

Fixpoint insert_desc (x : A) (l : list A) : list A :=
  match l with
  | [] => [x]
  | y :: l' => if lt (key x) (key y) then y :: insert_desc x l' else x :: l
  end.

Definition sorted_reverse (l : list A) : list A := foldr insert_desc [] l.
End Sorted.

(** ** The script *)

Section Program.
Variable rt : runtime.

(** [f"{v}"] *)
Definition py_str (v : json) : string :=
  match v with
  | JStr s => s
  | _ => py_repr rt v
  end.

(** *** class KnowledgeGapAnalyzer *)

Definition extract_content (w : world) (url : string) : res string :=
  match
    (let* response := requests_get w url [] [("User-Agent", "Mozilla/5.0")] in
     let* text := soup_text rt (requests.content response) in
     Ok (clean_text rt text))
  with
  | Ok text => Ok text
  | Raise e =>
      Raise (PyExn "Exception" ("Error extracting content from URL: " +:+ exn_msg e))
  end.

Definition query_knowledge_graph (w : world) (entity : string) : res json :=
  let params := [("query", JStr entity); ("key", JStr GOOGLE_API_KEY); ("limit", JInt 1)] in
  let* response := requests_get w knowledge_graph_endpoint params [] in
  requests.json response.

Definition analyze_with_vertex (w : world) (text : string) : res vertex_analysis :=
  let* entities := analyze_entities w text in
  let* entity_sentiment := analyze_entity_sentiment w text in
  Ok {| entities := entities; entity_sentiment := entity_sentiment |}.

(** The dict literal of lines 103-113. *)
Definition new_entity_info (va : vertex_analysis) (entity : language_v1.Entity)
  : entity_info :=
  {| name := language_v1.name entity;
     type := language_v1.type_name (language_v1.type_ entity);
     salience := language_v1.salience entity;
     metadata := language_v1.metadata entity;
     mentions := length (language_v1.mentions entity);
     sentiment :=
       match entity_sentiment va with
       | first :: _ =>
           Some {| magnitude := language_v1.magnitude (language_v1.sentiment first);
                   score := language_v1.score (language_v1.sentiment first) |}
       | [] => None
       end;
     knowledge_graph := None |}.

(** Lines 117-120. *)
Definition attach_knowledge_graph (kg_result : json) (info : entity_info)
  : res entity_info :=
  let* has_list := py_contains "itemListElement" kg_result in
  let* nonempty :=
    (if has_list
     then let* l := py_getitem kg_result "itemListElement" in Ok (py_truthy l)
     else Ok false) in
  if nonempty then
    let* l := py_getitem kg_result "itemListElement" in
    let* item := py_getitem0 l in
    let* has_result := py_contains "result" item in
    if has_result then
      let* result := py_getitem item "result" in
      Ok (set_knowledge_graph info result)
    else Ok info
  else Ok info.

(** The loop of lines 102-123, over the entities still to process. *)
Fixpoint process_entities (w : world) (va : vertex_analysis)
    (todo : list language_v1.Entity)
    (entities_data : list entity_info) (found_entities : gset string)
  : res (list entity_info * gset string) :=
  match todo with
  | [] => Ok (entities_data, found_entities)
  | entity :: todo' =>
      let info := new_entity_info va entity in
      let* kg_result := query_knowledge_graph w (language_v1.name entity) in
      let* info := attach_knowledge_graph kg_result info in
      process_entities w va todo'
        (entities_data ++ [info])
        (found_entities ∪ {[language_v1.name entity]})
  end.

Definition analyze_content (w : world) (url : string) : res analysis :=
  let* content := extract_content w url in
  let* vertex_analysis := analyze_with_vertex w content in
  let* done := process_entities w vertex_analysis (entities vertex_analysis) [] ∅ in
  Ok {| url := url;
        entities_data := fst done;
        entity_count := size (snd done) |}.

(** *** main *)

Definition print (s : string) : ST process unit :=
  fun p => (Ok tt, {| files := files p; stdout := stdout p +:+ s +:+ nl |}).

Definition input (w : world) (prompt : string) : ST process string :=
  fun p => (Ok (stdin_line w), {| files := files p; stdout := stdout p +:+ prompt |}).

(** [f.write(s)] on the open file, whose text so far is the state.  The
    strings of the model hold encoded text; the [UnicodeEncodeError] of a
    [str] with a lone surrogate is outside the model. *)
Definition f_write (s : string) : ST string unit :=
  fun buf => (Ok tt, buf +:+ s).

(** [with open(path, 'w', encoding='utf-8') as f: body].  Opening creates
    the file or empties it; leaving the block closes it, also when the
    body raises, so the file then holds what was written until then. *)
Definition with_open_w {A : Type} (path : string) (body : ST string A)
  : ST process A :=
  fun p =>
    let (r, buf) := body "" in
    (r, {| files := <[path := buf]> (files p); stdout := stdout p |}).

(** Lines 174-181. *)
Definition write_knowledge_graph (kg_info : json) : ST string unit :=
  f_write ("Knowledge Graph Information:" +:+ nl) >>
  (run* has := st_lift (py_contains "description" kg_info) in
   st_when has
     (run* v := st_lift (py_getitem kg_info "description") in
      f_write ("  Description: " +:+ py_str v +:+ nl))) >>
  (run* has := st_lift (py_contains "@type" kg_info) in
   st_when has
     (run* v := st_lift (py_getitem kg_info "@type") in
      f_write ("  Type: " +:+ py_str v +:+ nl))) >>
  (run* has := st_lift (py_contains "detailedDescription" kg_info) in
   st_when has
     (run* d := st_lift (py_getitem kg_info "detailedDescription") in
      run* v := st_lift (py_getitem d "articleBody") in
      f_write ("  Detailed Description: " +:+ py_str v +:+ nl))).

(** The body of the loop of lines 158-183. *)
Definition write_entity (entity : entity_info) : ST string unit :=
  f_write (nl +:+ "Entity: " +:+ name entity +:+ nl) >>
  f_write ("Type: " +:+ type entity +:+ nl) >>
  f_write ("Salience Score: " +:+ format_f 4 (salience entity) +:+ nl) >>
  f_write ("Number of Mentions: " +:+ str_of_nat (mentions entity) +:+ nl) >>
  match sentiment entity with
  | Some s =>
      f_write ("Sentiment Score: " +:+ format_f 2 (score s) +:+ nl) >>
      f_write ("Sentiment Magnitude: " +:+ format_f 2 (magnitude s) +:+ nl)
  | None => st_ret tt
  end >>
  match metadata entity with
  | _ :: _ =>
      f_write ("Metadata:" +:+ nl) >>
      st_for (metadata entity)
        (fun item => f_write ("  " +:+ fst item +:+ ": " +:+ snd item +:+ nl))
  | [] => st_ret tt
  end >>
  match knowledge_graph entity with
  | Some kg_info => write_knowledge_graph kg_info
  | None => st_ret tt
  end >>
  f_write (str_repeat "-" 40 +:+ nl).

Definition sorted_entities (results : analysis) : list entity_info :=
  sorted_reverse float_lt salience (entities_data results).

(** The body of the [with] block, lines 145-183. *)
Definition write_report (results : analysis) : ST string unit :=
  f_write ("Analysis Results for " +:+ url results +:+ nl) >>
  f_write (str_repeat "=" 50 +:+ nl +:+ nl) >>
  f_write ("Total Entities Found: " +:+ str_of_nat (entity_count results) +:+ nl +:+ nl) >>
  f_write ("Detailed Entity Analysis:" +:+ nl) >>
  f_write (str_repeat "=" 50 +:+ nl) >>
  st_for (sorted_entities results) write_entity.

Definition main (w : world) : ST process unit :=
  run* url := input w "Enter the URL to analyze: " in
  st_lift (client_init w) >>
  print (nl +:+ "Analyzing " +:+ url +:+ "...") >>
  run* results := st_lift (analyze_content w url) in
  with_open_w report_file (write_report results) >>
  print (nl +:+ "Analysis complete! Results saved to 'entities_analysis.txt'") >>
  print ("Found " +:+ str_of_nat (entity_count results) +:+ " entities").

End Program.

(** ** The report as the specification lays it out

    These definitions follow the specification's description of the report;
    the theorems below compare them with what [write_report] and
    [write_entity] write. *)

Definition str_concat (l : list string) : string := foldr String.append "" l.

(** Header with the URL and the total entity count. *)
Definition report_header (u : string) (count : nat) : string :=
  "Analysis Results for " +:+ u +:+ nl +:+
  str_repeat "=" 50 +:+ nl +:+ nl +:+
  "Total Entities Found: " +:+ str_of_nat count +:+ nl +:+ nl +:+
  "Detailed Entity Analysis:" +:+ nl +:+
  str_repeat "=" 50 +:+ nl.

(** Sentiment, two decimal places, if present. *)
Definition sentiment_lines (s : option sentiment_info) : string :=
  match s with
  | Some s =>
      "Sentiment Score: " +:+ format_f 2 (score s) +:+ nl +:+
      "Sentiment Magnitude: " +:+ format_f 2 (magnitude s) +:+ nl
  | None => ""
  end.

(** Metadata key/value lines, if any. *)
Definition metadata_lines (m : list (string * string)) : string :=
  match m with
  | [] => ""
  | _ =>
      "Metadata:" +:+ nl +:+
      str_concat (map (fun item => "  " +:+ fst item +:+ ": " +:+ snd item +:+ nl) m)
  end.

Definition kg_line (rt : runtime) (label : string) (v : option json) : string :=
  match v with
  | Some v => "  " +:+ label +:+ ": " +:+ py_str rt v +:+ nl
  | None => ""
  end.

(** [detailedDescription.articleBody] *)
Definition article_body (items : list (string * json)) : option json :=
  match dict_get "detailedDescription" items with
  | Some (JObj d) => dict_get "articleBody" d
  | _ => None
  end.

(** Knowledge-graph description, type and detailed description, if present. *)
Definition kg_section (rt : runtime) (kg : option json) : string :=
  match kg with
  | Some (JObj items) =>
      "Knowledge Graph Information:" +:+ nl +:+
      kg_line rt "Description" (dict_get "description" items) +:+
      kg_line rt "Type" (dict_get "@type" items) +:+
      kg_line rt "Detailed Description" (article_body items)
  | _ => ""
  end.

(** One block per entity: name, type, salience to four decimal places,
    mention count, then the optional parts, then the rule. *)
Definition spec_block (rt : runtime) (e : entity_info) : string :=
  nl +:+ "Entity: " +:+ name e +:+ nl +:+
  "Type: " +:+ type e +:+ nl +:+
  "Salience Score: " +:+ format_f 4 (salience e) +:+ nl +:+
  "Number of Mentions: " +:+ str_of_nat (mentions e) +:+ nl +:+
  sentiment_lines (sentiment e) +:+
  metadata_lines (metadata e) +:+
  kg_section rt (knowledge_graph e) +:+
  str_repeat "-" 40 +:+ nl.

(** The knowledge-graph record has the shape the search API documents: an
    object whose [detailedDescription], when present, is an object with an
    [articleBody]. *)
Definition kg_well_formed (kg : option json) : bool :=
  match kg with
  | None => true
  | Some (JObj items) =>
      match dict_get "detailedDescription" items with
      | None => true
      | Some (JObj d) => dict_has "articleBody" d
      | Some _ => false
      end
  | Some _ => false
  end.

(** A lookup that found nothing: an object without [itemListElement], with
    an empty one, or whose first item is an object without [result]. *)
Definition kg_empty (kg_result : json) : bool :=
  match kg_result with
  | JObj items =>
      match dict_get "itemListElement" items with
      | None => true
      | Some l =>
          negb (py_truthy l) ||
          match l with
          | JArr (JObj item :: _) => negb (dict_has "result" item)
          | _ => false
          end
      end
  | _ => false
  end.

(** A float that is a number: not NaN and not an infinity. *)
Definition is_finite (x : float) : bool :=
  match x with
  | S754_zero _ | S754_finite _ _ _ => true
  | _ => false
  end.

Definition is_digit (c : ascii) : bool :=
  let n := nat_of_ascii c in (48 <=? n) && (n <=? 57).

Fixpoint all_digits (s : string) : bool :=
  match s with
  | EmptyString => true
  | String c s' => is_digit c && all_digits s'
  end.

(** [s] ends with a decimal point followed by exactly [k] digits. *)
Definition has_decimals (k : nat) (s : string) : Prop :=
  exists int frac : string,
    s = int +:+ "." +:+ frac /\ String.length frac = k /\ all_digits frac = true.

(** [b] is the block that [write_entity] writes for [d]. *)
Definition block_of (rt : runtime) (d : entity_info) (b : string) : Prop :=
  write_entity rt d "" = (Ok tt, b).

(** [x >= y] as Python evaluates it. *)
Definition float_ge (x y : float) : bool := SFleb y x.

(** [x == y] *)
Definition float_eq (x y : float) : bool := SFeqb x y.

(** ** Notions used in the statements and their proofs *)

(** The exception [extract_content] raises when the request or the parsing
    raised [cause]. *)
Definition FetchError (cause : pyexn) : pyexn :=
  PyExn "Exception" ("Error extracting content from URL: " +:+ exn_msg cause).


(** The record built for [e] carries its name and its salience. *)
Definition record_of (e : language_v1.Entity) (d : entity_info) : Prop :=
  name d = language_v1.name e /\ salience d = language_v1.salience e.

(** The record differs from [info] in its knowledge-graph field at most. *)
Definition same_but_kg (d info : entity_info) : Prop :=
  name d = name info /\ type d = type info /\ salience d = salience info /\
  metadata d = metadata info /\ mentions d = mentions info /\
  sentiment d = sentiment info.

(** What one iteration makes of an entity of the response. *)
Definition enriched (w : world) (va : vertex_analysis)
    (e : language_v1.Entity) (d : entity_info) : Prop :=
  exists kg_result,
    query_knowledge_graph w (language_v1.name e) = Ok kg_result /\
    attach_knowledge_graph kg_result (new_entity_info va e) = Ok d.

(** [c] leaves the text already in the buffer alone: running it on [buf]
    is running it on the empty buffer and appending what it wrote. *)
Definition appends {A : Type} (c : ST string A) : Prop :=
  forall buf, c buf = (fst (c ""), buf +:+ snd (c "")).

(** ** Sample runs *)

Module Samples.
Import language_v1.

(** The single-precision values nearest to 0.8, 0.95 and 0.5, as doubles. *)
Definition f_0_8 : float := S754_finite false 7205759511166976 (-53).
Definition f_0_95 : float := S754_finite false 8556839184629760 (-53).
Definition f_0_5 : float := S754_finite false 4503599627370496 (-53).
Definition f_0 : float := S754_zero false.

Definition mention (s : string) : EntityMention := {| text := s; proper := true |}.

Definition paris : Entity :=
  {| name := "Paris"; type_ := LOCATION;
     metadata := [("mid", "/m/05qtj")];
     salience := f_0_8;
     mentions := [mention "Paris"];
     sentiment := {| magnitude := f_0; score := f_0 |} |}.

Definition eiffel : Entity :=
  {| name := "Eiffel Tower"; type_ := LOCATION;
     metadata := [];
     salience := f_0_95;
     mentions := [mention "Eiffel Tower"; mention "tower"];
     sentiment := {| magnitude := f_0; score := f_0 |} |}.

(** A second instance of the name Paris, with the salience of the first. *)
Definition paris_again : Entity :=
  {| name := "Paris"; type_ := OTHER;
     metadata := [];
     salience := f_0_8;
     mentions := [mention "Paris"];
     sentiment := {| magnitude := f_0; score := f_0 |} |}.

(** An entity of the sentiment response. *)
Definition eiffel_liked : Entity :=
  {| name := "Eiffel Tower"; type_ := LOCATION;
     metadata := [];
     salience := f_0_95;
     mentions := [mention "Eiffel Tower"];
     sentiment := {| magnitude := f_0_95; score := f_0_5 |} |}.

Definition page (body : string) : requests.Response :=
  {| requests.content := body;
     requests.json := Raise (PyExn "JSONDecodeError" "Expecting value") |}.

Definition kg_reply (body : json) : requests.Response :=
  {| requests.content := ""; requests.json := Ok body |}.

Definition paris_kg : json :=
  JObj [("itemListElement",
         JArr [JObj [("result",
                      JObj [("name", JStr "Paris");
                            ("description", JStr "Capital of France");
                            ("detailedDescription",
                             JObj [("articleBody", JStr "Paris is the capital of France.")])]);
                     ("resultScore", JInt 9000)]])].

Definition kg_nothing : json := JObj [("itemListElement", JArr [])].

Definition kg_service (params : list (string * json)) : res requests.Response :=
  match dict_get "query" params with
  | Some (JStr "Paris") => Ok (kg_reply paris_kg)
  | _ => Ok (kg_reply kg_nothing)
  end.

Definition kg_unavailable (params : list (string * json)) : res requests.Response :=
  Raise (PyExn "ConnectionError" "kgsearch.googleapis.com: connection refused").

Definition the_url : string := "https://example.org/paris".

Definition mk_world (site : res requests.Response)
    (kg : list (string * json) -> res requests.Response)
    (ents sents : list Entity) : world :=
  {| stdin_line := the_url;
     client_init := Ok tt;
     requests_get := fun u params _ =>
       if String.eqb u knowledge_graph_endpoint then kg params else site;
     analyze_entities := fun _ => Ok ents;
     analyze_entity_sentiment := fun _ => Ok sents |}.

Definition site_up : res requests.Response := Ok (page "Paris and the Eiffel Tower").
Definition site_down : res requests.Response :=
  Raise (PyExn "ConnectionError" "example.org: name or service not known").

(** The example of the specification. *)
Definition paris_world : world := mk_world site_up kg_service [paris; eiffel] [].
(** Duplicate names, a tie in salience, and a sentiment response. *)
Definition twins_world : world :=
  mk_world site_up kg_service [paris; eiffel; paris_again] [eiffel_liked; paris].
Definition kg_down_world : world := mk_world site_up kg_unavailable [paris; eiffel] [].
Definition unreachable_world : world := mk_world site_down kg_service [paris; eiffel] [].
Definition empty_world : world := mk_world site_up kg_service [] [].

(** A stand-in runtime: the parser returns the body as it is. *)
Definition rt : runtime :=
  {| py_repr := fun _ => "<repr>";
     soup_text := fun body => Ok body;
     clean_text := fun s => s |}.

(** A process with no files that has printed nothing. *)
Definition fresh : process := {| files := ∅; stdout := "" |}.
(** The same response behind another page. *)
Definition mirror_world : world :=
  mk_world (Ok (page "Another page on Paris")) kg_service [paris; eiffel] [].

(** A process that already has a report and console output. *)
Definition used : process :=
  {| files := {[report_file := "an older report"]}; stdout := "earlier output" |}.

Definition no_analysis : analysis := {| url := ""; entities_data := []; entity_count := 0 |}.

(** What [analyze_content] returns in the sample worlds. *)
Definition paris_analysis : analysis :=
  Eval vm_compute in
    match analyze_content rt paris_world the_url with
    | Ok r => r
    | Raise _ => no_analysis
    end.

Definition twins_analysis : analysis :=
  Eval vm_compute in
    match analyze_content rt twins_world the_url with
    | Ok r => r
    | Raise _ => no_analysis
    end.

(** The record of Paris in [twins_analysis]: sentiment, metadata and a
    knowledge-graph record. *)
Definition paris_record : entity_info :=
  Eval vm_compute in
    match entities_data twins_analysis with
    | d :: _ => d
    | [] => new_entity_info {| entities := []; entity_sentiment := [] |} paris
    end.
End Samples.

(** ** The clean-up of the extracted text (lines 47-49)

    The three lines work on the characters of the text, so here a [str] is
    the list of its code points.  [splitlines], [strip], [split] and [join]
    are the methods of [str]. *)

Definition SPACE : N := 32.

(** [c.isspace()], the characters that [strip] removes. *)
Definition is_space (c : N) : bool :=
  ((9 <=? c) && (c <=? 13) || (28 <=? c) && (c <=? 32) ||
   (c =? 133) || (c =? 160) || (c =? 5760) ||
   (8192 <=? c) && (c <=? 8202) ||
   (c =? 8232) || (c =? 8233) || (c =? 8239) || (c =? 8287) || (c =? 12288))%N.

(** The line boundaries of [splitlines]. *)
Definition is_linebreak (c : N) : bool :=
  ((10 <=? c) && (c <=? 13) || (28 <=? c) && (c <=? 30) ||
   (c =? 133) || (c =? 8232) || (c =? 8233))%N.

(** [s.splitlines()]: a carriage return followed by a line feed is one
    boundary, and a boundary at the very end opens no further line. *)
Fixpoint splitlines (s : list N) : list (list N) :=
  match s with
  | [] => []
  | c :: rest =>
      if is_linebreak c then
        [] :: match rest with
              | c' :: rest' => if ((c =? 13) && (c' =? 10))%N then splitlines rest'
                               else splitlines rest
              | [] => []
              end
      else
        match splitlines rest with
        | line :: lines => (c :: line) :: lines
        | [] => [[c]]
        end
  end.

(** [s.lstrip()] *)
Fixpoint lstrip (s : list N) : list N :=
  match s with
  | c :: rest => if is_space c then lstrip rest else s
  | [] => []
  end.

(** [s.rstrip()] *)
Fixpoint rstrip (s : list N) : list N :=
  match s with
  | c :: rest =>
      match rstrip rest with
      | [] => if is_space c then [] else [c]
      | kept => c :: kept
      end
  | [] => []
  end.

(** [s.strip()] *)
Definition strip (s : list N) : list N := rstrip (lstrip s).

(** [s.split("  ")]: the occurrences of two spaces are taken from the left
    and do not overlap. *)
Fixpoint split_spaces (s : list N) : list (list N) :=
  match s with
  | [] => [[]]
  | c :: rest =>
      match rest with
      | c' :: rest' =>
          if ((c =? SPACE) && (c' =? SPACE))%N then [] :: split_spaces rest'
          else match split_spaces rest with
               | piece :: pieces => (c :: piece) :: pieces
               | [] => [[c]]
               end
      | [] => [[c]]
      end
  end.

(** [sep.join(l)] *)
Fixpoint join (sep : list N) (l : list (list N)) : list N :=
  match l with
  | [] => []
  | x :: l' =>
      match l' with
      | [] => x
      | _ :: _ => x ++ sep ++ join sep l'
      end
  end.

Definition nonempty (s : list N) : bool :=
  match s with
  | [] => false
  | _ :: _ => true
  end.

(** The chunks of line 48, those of all lines in order. *)
Definition chunks_of (s : list N) : list (list N) :=
  flat_map (fun line => map strip (split_spaces line)) (map strip (splitlines s)).

(** Lines 47-49: the text that [extract_content] returns for [get_text()]
    returning [s]. *)
Definition clean_lines (s : list N) : list N :=
  join [SPACE] (List.filter nonempty (chunks_of s)).

(** No two spaces in a row. *)
Fixpoint no_double_space (s : list N) : bool :=
  match s with
  | c :: rest =>
      match rest with
      | c' :: _ => negb ((c =? SPACE) && (c' =? SPACE))%N && no_double_space rest
      | [] => true
      end
  | [] => true
  end.

(** The first character, if any, is not white space. *)
Definition starts_clean (s : list N) : bool :=
  match s with
  | c :: _ => negb (is_space c)
  | [] => true
  end.

(** The last character, if any, is not white space. *)
Fixpoint ends_clean (s : list N) : bool :=
  match s with
  | c :: rest =>
      match rest with
      | [] => negb (is_space c)
      | _ :: _ => ends_clean rest
      end
  | [] => true
  end.

(** Only white space. *)
Definition all_space (s : list N) : Prop := Forall (fun c => is_space c = true) s.

(** The characters that are not white space, in order. *)
Definition ink (s : list N) : list N := List.filter (fun c => negb (is_space c)) s.

(** A code point for an ASCII character, to write samples. *)
Definition points (s : string) : list N := map N_of_ascii (list_ascii_of_string s).

(** ** Shapes of the knowledge-graph reply *)

(** A reply that is not a container: [null], a boolean or a number. *)
Definition is_scalar (v : json) : bool :=
  match v with
  | JNull | JBool _ | JInt _ | JFloat _ => true
  | _ => false
  end.

(** A reply of the shape the search API documents: an object whose
    [itemListElement], when present, is a list that is empty or starts with
    an object. *)
Definition kg_reply_shaped (kg_result : json) : bool :=
  match kg_result with
  | JObj items =>
      match dict_get "itemListElement" items with
      | None => true
      | Some (JArr []) => true
      | Some (JArr (JObj _ :: _)) => true
      | Some _ => false
      end
  | _ => false
  end.

(** What the record takes from the entity it is built for. *)
Definition copied_from (e : language_v1.Entity) (d : entity_info) : Prop :=
  name d = language_v1.name e /\
  type d = language_v1.type_name (language_v1.type_ e) /\
  salience d = language_v1.salience e /\
  metadata d = language_v1.metadata e /\
  mentions d = length (language_v1.mentions e).

(** The two lines [main] prints before the analysis and the two it prints
    after the report. *)
Definition console_start (u : string) : string :=
  "Enter the URL to analyze: " +:+ nl +:+ "Analyzing " +:+ u +:+ "..." +:+ nl.

Definition console_end (count : nat) : string :=
  nl +:+ "Analysis complete! Results saved to 'entities_analysis.txt'" +:+ nl +:+
  "Found " +:+ str_of_nat count +:+ " entities" +:+ nl.

(** The lines of a block that come before the knowledge-graph section. *)
Definition block_start (e : entity_info) : string :=
  nl +:+ "Entity: " +:+ name e +:+ nl +:+
  "Type: " +:+ type e +:+ nl +:+
  "Salience Score: " +:+ format_f 4 (salience e) +:+ nl +:+
  "Number of Mentions: " +:+ str_of_nat (mentions e) +:+ nl +:+
  sentiment_lines (sentiment e) +:+
  metadata_lines (metadata e).

(** ** More sample runs *)

Module Edge.
Import language_v1.

(** A record for Paris whose [detailedDescription] has no [articleBody]. *)
Definition torn_kg : json :=
  JObj [("itemListElement",
         JArr [JObj [("result",
                      JObj [("description", JStr "Capital of France");
                            ("detailedDescription",
                             JObj [("url", JStr "https://en.wikipedia.org/wiki/Paris")])])]])].

Definition torn_service (params : list (string * json)) : res requests.Response :=
  match dict_get "query" params with
  | Some (JStr "Paris") => Ok (Samples.kg_reply torn_kg)
  | _ => Ok (Samples.kg_reply Samples.kg_nothing)
  end.

(** The service answers [null]. *)
Definition null_service (params : list (string * json)) : res requests.Response :=
  Ok (Samples.kg_reply JNull).

Definition torn_world : world :=
  Samples.mk_world Samples.site_up torn_service [Samples.paris; Samples.eiffel] [].
Definition null_world : world :=
  Samples.mk_world Samples.site_up null_service [Samples.paris; Samples.eiffel] [].

Definition torn_analysis : analysis :=
  Eval vm_compute in
    match analyze_content Samples.rt torn_world Samples.the_url with
    | Ok r => r
    | Raise _ => Samples.no_analysis
    end.

(** The lookup of Paris raises, the others find nothing. *)
Definition flaky_service (params : list (string * json)) : res requests.Response :=
  match dict_get "query" params with
  | Some (JStr "Paris") =>
      Raise (PyExn "ReadTimeout" "kgsearch.googleapis.com: read timed out")
  | _ => Ok (Samples.kg_reply Samples.kg_nothing)
  end.

Definition flaky_world : world :=
  Samples.mk_world Samples.site_up flaky_service
    [Samples.eiffel; Samples.paris; Samples.paris_again] [].

(** A process with a file of its own beside an older report. *)
Definition busy : process :=
  {| files := <["notes.txt" := "keep me"]> {[report_file := "an older report"]};
     stdout := "" |}.

(** A reply with two items and a further key. *)
Definition two_items : list (string * json) :=
  [("@type", JStr "ItemList");
   ("itemListElement",
    JArr [JObj [("resultScore", JInt 12); ("result", JObj [("name", JStr "first")])];
          JObj [("result", JObj [("name", JStr "second")])]])].

(** The knowledge-graph record of Paris in [torn_world], and its record. *)
Definition torn_items : list (string * json) :=
  [("description", JStr "Capital of France");
   ("detailedDescription",
    JObj [("url", JStr "https://en.wikipedia.org/wiki/Paris")])].

Definition torn_record : entity_info :=
  set_knowledge_graph
    (new_entity_info
       {| entities := [Samples.paris; Samples.eiffel]; entity_sentiment := [] |}
       Samples.paris)
    (JObj torn_items).

(** A page text with blank lines, runs of spaces and a tab. *)
Definition page_text : list N :=
  points "  Paris   is the capital  " ++ [10; 10; 9]%N ++
  points "of France.  It has a tower" ++ [13; 10]%N.
End Edge.

(** * Facts *)

(** ** Strings *)

Lemma str_app_cons (ch : ascii) (a b : string) :
  String ch a +:+ b = String ch (a +:+ b).
Proof. reflexivity. Qed.

Lemma str_app_nil_l (a : string) : "" +:+ a = a.
Proof. reflexivity. Qed.

Lemma str_app_assoc (a b c : string) : (a +:+ b) +:+ c = a +:+ (b +:+ c).
Proof.
  induction a as [|ch a IH]; [reflexivity|].
  rewrite !str_app_cons. now rewrite IH.
Qed.

Lemma str_app_nil_r (a : string) : a +:+ "" = a.
Proof.
  induction a as [|ch a IH]; [reflexivity|].
  rewrite str_app_cons. now rewrite IH.
Qed.

Lemma str_length_app (a b : string) :
  String.length (a +:+ b) = String.length a + String.length b.
Proof.
  induction a as [|ch a IH]; [reflexivity|].
  rewrite str_app_cons. cbn [String.length]. now rewrite IH.
Qed.

Lemma all_digits_app (a b : string) :
  all_digits (a +:+ b) = all_digits a && all_digits b.
Proof.
  induction a as [|ch a IH]; [reflexivity|].
  rewrite str_app_cons. cbn [all_digits]. rewrite IH. now rewrite andb_assoc.
Qed.

Lemma str_concat_app (l1 l2 : list string) :
  str_concat (l1 ++ l2) = str_concat l1 +:+ str_concat l2.
Proof.
  unfold str_concat.
  induction l1 as [|s l1 IH]; [reflexivity|].
  cbn [app foldr]. rewrite IH. now rewrite str_app_assoc.
Qed.

(** ** Fixed-point formatting *)

Lemma digit_char_is_digit (d : N) : (d < 10)%N -> is_digit (digit_char d) = true.
Proof.
  intros H.
  assert (Hd : In d [0; 1; 2; 3; 4; 5; 6; 7; 8; 9]%N).
  { destruct d as [|p]; [now left|].
    do 10 (destruct p as [p|p|]; try lia; cbn; auto 12). }
  cbn in Hd. intuition (subst; reflexivity).
Qed.

Lemma fixed_digits_length (k : nat) (n : N) : String.length (fixed_digits k n) = k.
Proof.
  revert n. induction k as [|k IH]; intros n; [reflexivity|].
  cbn [fixed_digits]. rewrite str_length_app, IH. cbn. lia.
Qed.

Lemma fixed_digits_all_digits (k : nat) (n : N) : all_digits (fixed_digits k n) = true.
Proof.
  revert n. induction k as [|k IH]; intros n; [reflexivity|].
  cbn [fixed_digits]. rewrite all_digits_app, IH. cbn [all_digits andb].
  rewrite digit_char_is_digit; [reflexivity|].
  apply N.mod_upper_bound. lia.
Qed.

Lemma format_scaled_decimals (k : nat) (n : N) :
  k <> 0 -> has_decimals k (format_scaled k n).
Proof.
  intros Hk. unfold format_scaled.
  destruct k as [|k]; [congruence|].
  eexists _, _. split; [reflexivity|].
  split; [apply fixed_digits_length | apply fixed_digits_all_digits].
Qed.

Lemma format_f_decimals (k : nat) (x : float) :
  k <> 0 -> is_finite x = true -> has_decimals k (format_f k x).
Proof.
  intros Hk Hx.
  destruct x as [s|s| |s m e]; try discriminate Hx; cbn [format_f].
  - destruct (format_scaled_decimals k 0 Hk) as (i & f & -> & Hl & Hd).
    exists (sign_str s +:+ i), f. now rewrite str_app_assoc.
  - destruct (format_scaled_decimals k (scaled_round k m e) Hk) as (i & f & -> & Hl & Hd).
    exists (sign_str s +:+ i), f. now rewrite str_app_assoc.
Qed.

(** ** Writing to the open file only appends *)


Lemma appends_write (s : string) : appends (f_write s).
Proof. intros buf. reflexivity. Qed.

Lemma appends_ret {A : Type} (a : A) : appends (st_ret a).
Proof. intros buf. cbn. now rewrite str_app_nil_r. Qed.

Lemma appends_lift {A : Type} (c : res A) : appends (st_lift c).
Proof. intros buf. cbn. now rewrite str_app_nil_r. Qed.

Lemma appends_bind {A B : Type} (c : ST string A) (k : A -> ST string B) :
  appends c -> (forall a, appends (k a)) -> appends (st_bind c k).
Proof.
  intros Hc Hk buf. unfold st_bind.
  rewrite (Hc buf). destruct (c "") as [[a|e] out]; cbn [fst snd].
  - rewrite (Hk a (buf +:+ out)), (Hk a out). cbn [fst snd].
    now rewrite str_app_assoc.
  - reflexivity.
Qed.

Lemma appends_when (c : bool) (body : ST string unit) :
  appends body -> appends (st_when c body).
Proof. destruct c; [trivial|]. intros _. apply appends_ret. Qed.

Lemma appends_for {A : Type} (l : list A) (body : A -> ST string unit) :
  (forall x, appends (body x)) -> appends (st_for l body).
Proof.
  intros Hb. induction l as [|x l IH]; cbn [st_for].
  - apply appends_ret.
  - apply appends_bind; auto.
Qed.

Ltac appends_tac :=
  repeat first
    [ apply appends_bind; [|intros ?]
    | apply appends_when
    | apply appends_for; intros ?
    | apply appends_write
    | apply appends_ret
    | apply appends_lift ].

Lemma write_knowledge_graph_appends (rt : runtime) (kg_info : json) :
  appends (write_knowledge_graph rt kg_info).
Proof. unfold write_knowledge_graph. appends_tac. Qed.

Lemma write_entity_appends (rt : runtime) (e : entity_info) :
  appends (write_entity rt e).
Proof.
  unfold write_entity. appends_tac.
  - destruct (sentiment e); appends_tac.
  - destruct (metadata e); appends_tac.
  - destruct (knowledge_graph e); [apply write_knowledge_graph_appends | appends_tac].
Qed.

(** A loop that ran to its end wrote, one after the other, what each
    iteration writes. *)
Lemma st_for_ok {A : Type} (body : A -> ST string unit) (l : list A) (buf buf' : string) :
  (forall x, appends (body x)) ->
  st_for l body buf = (Ok tt, buf') ->
  exists outs,
    Forall2 (fun x out => body x "" = (Ok tt, out)) l outs /\
    buf' = buf +:+ str_concat outs.
Proof.
  intros Hb. revert buf. induction l as [|x l IH]; intros buf H; cbn [st_for] in H.
  - exists []. split; [constructor|].
    injection H as <-. cbn. now rewrite str_app_nil_r.
  - unfold st_bind in H. rewrite (Hb x buf) in H.
    destruct (body x "") as [[[]|e] out] eqn:Hx; cbn [fst snd] in H; [|discriminate].
    destruct (IH _ H) as (outs & Hall & ->).
    exists (out :: outs). split; [constructor; assumption|].
    cbn. now rewrite str_app_assoc.
Qed.

Lemma st_for_length {A : Type} (body : A -> ST string unit) (l : list A) (outs : list string) :
  Forall2 (fun x out => body x "" = (Ok tt, out)) l outs -> length outs = length l.
Proof. intros H. symmetry. eapply Forall2_length, H. Qed.

(** ** The sort *)

Section SortedFacts.
Context {A K : Type} (lt : K -> K -> bool) (key : A -> K).

Lemma insert_desc_perm (x : A) (l : list A) :
  Permutation (insert_desc lt key x l) (x :: l).
Proof.
  induction l as [|y l IH]; cbn [insert_desc]; [reflexivity|].
  destruct (lt (key x) (key y)); [|reflexivity].
  rewrite IH. apply perm_swap.
Qed.

Lemma sorted_reverse_perm (l : list A) : Permutation (sorted_reverse lt key l) l.
Proof.
  induction l as [|x l IH]; cbn; [reflexivity|].
  fold (sorted_reverse lt key l).
  rewrite insert_desc_perm. now constructor.
Qed.

(** Stability: a class of elements no two of which are in [<] keeps its
    order. *)
Lemma insert_desc_filter (f : A -> bool) (x : A) (l : list A) :
  (f x = true -> forall y, In y l -> f y = true -> lt (key x) (key y) = false) ->
  List.filter f (insert_desc lt key x l) = List.filter f (x :: l).
Proof.
  induction l as [|y l IH]; intros H; cbn [insert_desc]; [reflexivity|].
  destruct (lt (key x) (key y)) eqn:Hxy; [|reflexivity].
  cbn [List.filter]. rewrite IH.
  - cbn [List.filter]. destruct (f x) eqn:Hx; [|reflexivity].
    destruct (f y) eqn:Hy; [|reflexivity].
    rewrite (H eq_refl y) in Hxy; [discriminate|now left|assumption].
  - intros Hx z Hz. apply H; [assumption|now right].
Qed.

Lemma sorted_reverse_filter (f : A -> bool) (l : list A) :
  (forall x y, f x = true -> f y = true -> lt (key x) (key y) = false) ->
  List.filter f (sorted_reverse lt key l) = List.filter f l.
Proof.
  intros H. induction l as [|x l IH]; [reflexivity|].
  cbn [sorted_reverse foldr]. fold (sorted_reverse lt key l).
  rewrite insert_desc_filter by (intros; now apply H).
  cbn [List.filter]. now rewrite IH.
Qed.

(** Order, for keys that [<] orders consistently. *)
Variable ok : K -> Prop.
Hypothesis lt_asym : forall a b, lt a b = true -> lt b a = false.
Hypothesis lt_ntrans :
  forall a b c, ok a -> ok b -> ok c ->
    lt a b = false -> lt b c = false -> lt a c = false.

Let not_below (a b : A) : Prop := lt (key a) (key b) = false.

Lemma insert_desc_sorted (x : A) (l : list A) :
  ok (key x) -> Forall (fun y => ok (key y)) l ->
  StronglySorted not_below l -> StronglySorted not_below (insert_desc lt key x l).
Proof.
  intros Hx. induction l as [|y l IH]; intros Hok Hs; cbn [insert_desc].
  - repeat constructor.
  - inversion Hok as [|? ? Hy Hl]; subst.
    inversion Hs as [|? ? Hs' Hall]; subst.
    destruct (lt (key x) (key y)) eqn:Hxy.
    + constructor; [now apply IH|].
      eapply Permutation_Forall; [symmetry; apply insert_desc_perm|].
      constructor; [|assumption]. now apply lt_asym.
    + constructor; [assumption|].
      constructor; [assumption|].
      rewrite Forall_forall in Hall, Hl |- *. intros z Hz.
      apply (lt_ntrans _ (key y)); auto. now apply Hall.
Qed.

Lemma sorted_reverse_sorted (l : list A) :
  Forall (fun y => ok (key y)) l -> StronglySorted not_below (sorted_reverse lt key l).
Proof.
  induction l as [|x l IH]; intros Hok; [constructor|].
  inversion Hok; subst.
  cbn [sorted_reverse foldr]. fold (sorted_reverse lt key l).
  apply insert_desc_sorted; [assumption| |now apply IH].
  eapply Permutation_Forall; [symmetry; apply sorted_reverse_perm|assumption].
Qed.
End SortedFacts.

(** ** Comparison of floats *)

Ltac float_cases :=
  unfold float_lt, float_ge, float_eq, SFltb, SFleb, SFeqb, SFcompare;
  repeat match goal with
         | x : float |- _ => destruct x as [[]|[]| |[] ? ?]
         | x : spec_float |- _ => destruct x as [[]|[]| |[] ? ?]
         end;
  cbn [is_nan]; try congruence;
  repeat match goal with
         | |- context [Pos.compare_cont Eq ?a ?b] =>
             change (Pos.compare_cont Eq a b) with (Pos.compare a b)
         end;
  repeat match goal with
         | |- context [(?a ?= ?b)%Z] => destruct (Z.compare_spec a b)
         | |- context [(?a ?= ?b)%positive] => destruct (Pos.compare_spec a b)
         end;
  cbn [CompOpp]; try congruence; try lia.

Lemma float_lt_asym (a b : float) : float_lt a b = true -> float_lt b a = false.
Proof. float_cases. Qed.

Lemma float_lt_ntrans (a b c : float) :
  is_nan a = false -> is_nan b = false -> is_nan c = false ->
  float_lt a b = false -> float_lt b c = false -> float_lt a c = false.
Proof. float_cases. Qed.

Lemma float_not_lt_ge (a b : float) :
  is_nan a = false -> is_nan b = false ->
  float_lt a b = false -> float_ge a b = true.
Proof. float_cases. Qed.

Lemma float_eq_not_lt (a b v : float) :
  float_eq a v = true -> float_eq b v = true -> float_lt a b = false.
Proof. float_cases. Qed.

(** ** The analysis *)


Lemma attach_knowledge_graph_cases (kg_result : json) (info d : entity_info) :
  attach_knowledge_graph kg_result info = Ok d ->
  d = info \/ exists v, d = set_knowledge_graph info v.
Proof.
  unfold attach_knowledge_graph, res_bind. intros H.
  repeat case_match; simplify_eq; eauto.
Qed.

Lemma attach_knowledge_graph_frame (kg_result : json) (info d : entity_info) :
  attach_knowledge_graph kg_result info = Ok d -> same_but_kg d info.
Proof.
  intros H. destruct (attach_knowledge_graph_cases _ _ _ H) as [->|[v ->]];
    repeat split.
Qed.

Lemma attach_knowledge_graph_empty (kg_result : json) (info : entity_info) :
  kg_empty kg_result = true -> attach_knowledge_graph kg_result info = Ok info.
Proof.
  unfold kg_empty, attach_knowledge_graph, py_contains, py_getitem, dict_has.
  destruct kg_result as [| | | | | |items]; try discriminate.
  destruct (dict_get "itemListElement" items) as [l|]; [|reflexivity].
  cbn [res_bind]. destruct (py_truthy l) eqn:Hl; [|reflexivity].
  cbn [negb orb]. destruct l as [| | | | |[|[| | | | | |item] xs]|]; try discriminate.
  cbn [py_getitem0 res_bind]. unfold dict_has.
  destruct (dict_get "result" item); [discriminate|reflexivity].
Qed.


Lemma enriched_frame (w : world) (va : vertex_analysis)
    (e : language_v1.Entity) (d : entity_info) :
  enriched w va e d -> same_but_kg d (new_entity_info va e).
Proof. intros (j & _ & H). eapply attach_knowledge_graph_frame, H. Qed.

Lemma process_entities_ok (w : world) (va : vertex_analysis)
    (todo : list language_v1.Entity) (acc data : list entity_info)
    (found found' : gset string) :
  process_entities w va todo acc found = Ok (data, found') ->
  exists new,
    data = acc ++ new /\
    Forall2 (enriched w va) todo new /\
    found' = found ∪ list_to_set (map language_v1.name todo).
Proof.
  revert acc found. induction todo as [|e todo IH]; intros acc found H;
    cbn [process_entities] in H.
  - simplify_eq. exists []. rewrite app_nil_r.
    split; [reflexivity|]. split; [constructor|].
    cbn [map]. now rewrite list_to_set_nil, (right_id_L ∅ (∪)).
  - unfold res_bind in H at 1.
    destruct (query_knowledge_graph w (language_v1.name e)) as [j|x] eqn:Hq;
      [|discriminate].
    unfold res_bind in H at 1.
    destruct (attach_knowledge_graph j (new_entity_info va e)) as [d|x] eqn:Ha;
      [|discriminate].
    destruct (IH _ _ H) as (new & -> & Hall & ->).
    exists (d :: new). rewrite <- app_assoc. cbn [app map].
    split; [reflexivity|]. split.
    + constructor; [|assumption]. now exists j.
    + now rewrite list_to_set_cons, (assoc_L (∪)).
Qed.

Lemma analyze_with_vertex_ok (w : world) (text : string) (va : vertex_analysis) :
  analyze_with_vertex w text = Ok va <->
  analyze_entities w text = Ok (entities va) /\
  analyze_entity_sentiment w text = Ok (entity_sentiment va).
Proof.
  unfold analyze_with_vertex, res_bind. split.
  - intros H.
    destruct (analyze_entities w text) as [ents|x]; [|discriminate].
    destruct (analyze_entity_sentiment w text) as [sents|x]; [|discriminate].
    simplify_eq. auto.
  - intros [-> ->]. now destruct va.
Qed.

Lemma analyze_content_ok (rt : runtime) (w : world) (u : string) (r : analysis) :
  analyze_content rt w u = Ok r ->
  exists text va,
    extract_content rt w u = Ok text /\
    analyze_with_vertex w text = Ok va /\
    url r = u /\
    Forall2 (enriched w va) (entities va) (entities_data r) /\
    entity_count r = size (list_to_set (map language_v1.name (entities va)) : gset string).
Proof.
  unfold analyze_content, res_bind. intros H.
  destruct (extract_content rt w u) as [text|x]; [|discriminate].
  destruct (analyze_with_vertex w text) as [va|x] eqn:Hv; [|discriminate].
  destruct (process_entities w va (entities va) [] ∅) as [[data found]|x] eqn:Hp;
    [|discriminate].
  simplify_eq. cbn [url entities_data entity_count fst snd].
  destruct (process_entities_ok _ _ _ _ _ _ _ Hp) as (new & -> & Hall & ->).
  exists text, va. rewrite app_nil_l, (left_id_L ∅ (∪)).
  repeat split; try reflexivity; assumption.
Qed.

Lemma size_list_to_set_distinct (l : list string) :
  size (list_to_set l : gset string) = length (remove_dups l).
Proof.
  rewrite <- (size_list_to_set (C := gset string) (remove_dups l))
    by apply NoDup_remove_dups.
  f_equal. apply set_eq. intros x.
  rewrite !elem_of_list_to_set. now rewrite elem_of_remove_dups.
Qed.

Lemma remove_dups_length_le (l : list string) : length (remove_dups l) <= length l.
Proof.
  induction l as [|x l IH]; cbn [remove_dups]; [lia|].
  case_decide; cbn [length]; lia.
Qed.

Lemma remove_dups_length_lt (l : list string) :
  ~ NoDup l -> length (remove_dups l) < length l.
Proof.
  induction l as [|x l IH]; intros H.
  - destruct H. constructor.
  - cbn [remove_dups]. pose proof (remove_dups_length_le l).
    case_decide as Hx; cbn [length]; [lia|].
    apply Nat.succ_lt_mono with (n := length (remove_dups l)) (m := length l).
    apply IH. intros Hl. apply H. now apply NoDup_cons.
Qed.

(** ** The report *)

Lemma st_bind_write {B : Type} (s : string) (k : unit -> ST string B) (buf : string) :
  st_bind (f_write s) k buf = k tt (buf +:+ s).
Proof. reflexivity. Qed.

Lemma st_bind_ret {S A B : Type} (a : A) (k : A -> ST S B) (s : S) :
  st_bind (st_ret a) k s = k a s.
Proof. reflexivity. Qed.

Lemma st_bind_ok {S A B : Type} (c : ST S A) (k : A -> ST S B) (s s' : S) (a : A) :
  c s = (Ok a, s') -> st_bind c k s = k a s'.
Proof. intros H. unfold st_bind. now rewrite H. Qed.

Lemma st_bind_assoc {S A B C : Type}
    (c : ST S A) (k1 : A -> ST S B) (k2 : B -> ST S C) (s : S) :
  st_bind (st_bind c k1) k2 s = st_bind c (fun a => st_bind (k1 a) k2) s.
Proof. unfold st_bind. now destruct (c s) as [[a|e] s']. Qed.

Lemma st_for_write {A : Type} (g : A -> string) (l : list A) (buf : string) :
  st_for l (fun x => f_write (g x)) buf = (Ok tt, buf +:+ str_concat (map g l)).
Proof.
  revert buf. induction l as [|x l IH]; intros buf; cbn [st_for map].
  - cbn. now rewrite str_app_nil_r.
  - unfold st_bind, f_write at 1. rewrite IH.
    cbn [str_concat foldr]. now rewrite str_app_assoc.
Qed.

Lemma write_knowledge_graph_ok (rt : runtime) (items : list (string * json)) (buf : string) :
  kg_well_formed (Some (JObj items)) = true ->
  write_knowledge_graph rt (JObj items) buf =
  (Ok tt, buf +:+ kg_section rt (Some (JObj items))).
Proof.
  unfold kg_well_formed, write_knowledge_graph, kg_section, article_body.
  unfold st_bind, f_write, st_lift, st_when, st_ret, py_contains, py_getitem, dict_has, kg_line.
  intros H.
  destruct (dict_get "description" items) as [v1|];
    destruct (dict_get "@type" items) as [v2|];
    destruct (dict_get "detailedDescription" items) as [[| | | | | |d]|];
    try discriminate H;
    try (unfold dict_has in H; destruct (dict_get "articleBody" d) as [v3|];
         [|discriminate H]);
    rewrite ?str_app_assoc, ?str_app_nil_l, ?str_app_nil_r; reflexivity.
Qed.

Lemma write_entity_ok (rt : runtime) (e : entity_info) (buf : string) :
  kg_well_formed (knowledge_graph e) = true ->
  write_entity rt e buf = (Ok tt, buf +:+ spec_block rt e).
Proof.
  intros H. rewrite (write_entity_appends rt e buf).
  enough (He : write_entity rt e "" = (Ok tt, spec_block rt e)) by now rewrite He.
  unfold write_entity, spec_block, sentiment_lines, metadata_lines.
  destruct (sentiment e) as [s|];
    destruct (metadata e) as [|item m] eqn:Hm;
    destruct (knowledge_graph e) as [[| | | | | |items]|] eqn:Hk;
    try discriminate H;
    repeat first
      [ rewrite st_bind_assoc
      | rewrite st_bind_write
      | rewrite st_bind_ret
      | rewrite (st_bind_ok _ _ _ _ _ (st_for_write _ _ _))
      | rewrite (st_bind_ok _ _ _ _ _ (write_knowledge_graph_ok rt _ _ H)) ];
    unfold f_write, kg_section;
    rewrite ?str_app_assoc, ?str_app_nil_l, ?str_app_nil_r; reflexivity.
Qed.

Lemma write_report_run (rt : runtime) (r : analysis) :
  write_report rt r "" =
  (fst (st_for (sorted_entities r) (write_entity rt) ""),
   report_header (url r) (entity_count r) +:+
   snd (st_for (sorted_entities r) (write_entity rt) "")).
Proof.
  unfold write_report, st_bind at 1 2 3 4 5. unfold f_write.
  rewrite (appends_for _ _ (write_entity_appends rt)).
  unfold report_header.
  now rewrite ?str_app_assoc, ?str_app_nil_l.
Qed.

(** ** The run *)

Lemma main_init_raises (rt : runtime) (w : world) (p : process) (e : pyexn) :
  client_init w = Raise e ->
  fst (main rt w p) = Raise e /\ files (snd (main rt w p)) = files p.
Proof.
  intros H. unfold main, st_bind, input, st_lift. rewrite H. split; reflexivity.
Qed.

Lemma main_analysis_raises (rt : runtime) (w : world) (p : process) (e : pyexn) :
  client_init w = Ok tt ->
  analyze_content rt w (stdin_line w) = Raise e ->
  fst (main rt w p) = Raise e /\ files (snd (main rt w p)) = files p.
Proof.
  intros Hi Ha. unfold main, st_bind, input, st_lift, print. rewrite Hi, Ha.
  split; reflexivity.
Qed.

Lemma main_writes (rt : runtime) (w : world) (p : process) (r : analysis) :
  client_init w = Ok tt ->
  analyze_content rt w (stdin_line w) = Ok r ->
  fst (main rt w p) = fst (write_report rt r "") /\
  files (snd (main rt w p)) = <[report_file := snd (write_report rt r "")]> (files p).
Proof.
  intros Hi Ha. unfold main, st_bind, input, st_lift, print, with_open_w.
  rewrite Hi, Ha.
  destruct (write_report rt r "") as [[[]|e] out]; split; reflexivity.
Qed.

(** A run that ends normally analysed the page and wrote the header and
    the block of every entity of the sorted list. *)
Lemma main_ok (rt : runtime) (w : world) (p p' : process) :
  main rt w p = (Ok tt, p') ->
  exists r blocks,
    client_init w = Ok tt /\
    analyze_content rt w (stdin_line w) = Ok r /\
    Forall2 (block_of rt) (sorted_entities r) blocks /\
    files p' =
      <[report_file := report_header (url r) (entity_count r) +:+ str_concat blocks]>
        (files p).
Proof.
  intros H.
  destruct (client_init w) as [[]|e] eqn:Hi.
  2: { destruct (main_init_raises rt w p e Hi) as [Hf _].
       rewrite H in Hf. discriminate Hf. }
  destruct (analyze_content rt w (stdin_line w)) as [r|e] eqn:Ha.
  2: { destruct (main_analysis_raises rt w p e Hi Ha) as [Hf _].
       rewrite H in Hf. discriminate Hf. }
  destruct (main_writes rt w p r Hi Ha) as [Hf Hs].
  rewrite H in Hf, Hs. cbn [fst snd] in Hf, Hs.
  rewrite write_report_run in Hf, Hs. cbn [fst snd] in Hf, Hs.
  destruct (st_for (sorted_entities r) (write_entity rt) "") as [o body] eqn:Hfor.
  cbn [fst snd] in Hf, Hs. subst o.
  destruct (st_for_ok _ _ _ _ (write_entity_appends rt) Hfor) as (blocks & Hall & ->).
  exists r, blocks. rewrite str_app_nil_l in Hs. auto.
Qed.

(** What [write_entity] does, whatever the knowledge-graph record is. *)
Lemma write_entity_run (rt : runtime) (e : entity_info) :
  write_entity rt e "" =
  match knowledge_graph e with
  | None => (Ok tt, block_start e +:+ str_repeat "-" 40 +:+ nl)
  | Some kg_info =>
      match write_knowledge_graph rt kg_info "" with
      | (Ok _, out) => (Ok tt, block_start e +:+ out +:+ str_repeat "-" 40 +:+ nl)
      | (Raise x, out) => (Raise x, block_start e +:+ out)
      end
  end.
Proof.
  unfold write_entity, block_start, sentiment_lines, metadata_lines.
  destruct (sentiment e) as [s|];
    destruct (metadata e) as [|item m] eqn:Hm;
    destruct (knowledge_graph e) as [kg_info|] eqn:Hk;
    repeat first
      [ rewrite st_bind_assoc
      | rewrite st_bind_write
      | rewrite st_bind_ret
      | rewrite (st_bind_ok _ _ _ _ _ (st_for_write _ _ _)) ];
    try (unfold st_bind; rewrite (write_knowledge_graph_appends rt kg_info);
         destruct (write_knowledge_graph rt kg_info "") as [[[]|x] out];
         cbn [fst snd]);
    unfold f_write;
    rewrite ?str_app_assoc, ?str_app_nil_l, ?str_app_nil_r; reflexivity.
Qed.


Lemma new_entity_info_copied (va : vertex_analysis) (e : language_v1.Entity) :
  copied_from e (new_entity_info va e).
Proof. repeat split. Qed.

Lemma enriched_copied (w : world) (va : vertex_analysis)
    (e : language_v1.Entity) (d : entity_info) :
  enriched w va e d -> copied_from e d.
Proof.
  intros H. destruct (enriched_frame _ _ _ _ H) as (Hn & Ht & Hs & Hm & Hc & _).
  unfold copied_from. rewrite Hn, Ht, Hs, Hm, Hc. apply new_entity_info_copied.
Qed.

(** * The claims *)

Lemma StronglySorted_weaken {A : Type} (P : A -> Prop) (R R' : A -> A -> Prop) (l : list A) :
  (forall a b, P a -> P b -> R a b -> R' a b) ->
  Forall P l -> StronglySorted R l -> StronglySorted R' l.
Proof.
  intros HR HP HS. induction HS as [|a l HS IH Ha]; [constructor|].
  inversion HP as [|? ? Pa Pl]; subst.
  constructor; [now apply IH|].
  rewrite Forall_forall in Ha, Pl |- *. intros b Hb.
  apply HR; auto.
Qed.

Lemma enriched_records (w : world) (va : vertex_analysis)
    (ents : list language_v1.Entity) (data : list entity_info) :
  Forall2 (enriched w va) ents data -> Forall2 record_of ents data.
Proof.
  intros H. eapply Forall2_impl; [exact H|].
  intros e d He. destruct (enriched_frame _ _ _ _ He) as (Hn & _ & Hs & _).
  split; assumption.
Qed.

Lemma records_fields (ents : list language_v1.Entity) (data : list entity_info) :
  Forall2 record_of ents data ->
  map name data = map language_v1.name ents /\
  map salience data = map language_v1.salience ents.
Proof.
  induction 1 as [|e d es ds [Hn Hs] _ [IHn IHs]]; [split; reflexivity|].
  cbn [map]. now rewrite Hn, Hs, IHn, IHs.
Qed.

(** The analysis of a page that was fetched and analysed: its records are
    those of the entities of the response, in the order of the response. *)
Lemma analyze_content_records (rt : runtime) (w : world) (u text : string)
    (ents : list language_v1.Entity) (r : analysis) :
  extract_content rt w u = Ok text ->
  analyze_entities w text = Ok ents ->
  analyze_content rt w u = Ok r ->
  exists va,
    entities va = ents /\
    analyze_entity_sentiment w text = Ok (entity_sentiment va) /\
    url r = u /\
    Forall2 (enriched w va) ents (entities_data r) /\
    entity_count r = length (remove_dups (map language_v1.name ents)).
Proof.
  intros He Hents Hr.
  destruct (analyze_content_ok _ _ _ _ Hr) as (text' & va & He' & Hva & Hu & Hall & Hc).
  rewrite He in He'. simplify_eq.
  apply analyze_with_vertex_ok in Hva as [Hva1 Hva2].
  rewrite Hents in Hva1. simplify_eq.
  exists va. rewrite Hc, size_list_to_set_distinct. auto.
Qed.

(** C1. In the report the entities come in non-increasing order of salience,
    and those of equal salience in the order of the analyzer's response: the
    blocks written are those of a rearrangement [shown] of the records
    [data] built from the response that is sorted by [>=] on the salience
    and keeps, for every value [v], the records of salience [v] in their
    order.  For the response with Paris at 0.8 and the Eiffel Tower at 0.95
    the report names the Eiffel Tower first. *)
Theorem report_sorted_by_salience :
  (forall (rt : runtime) (w : world) (p p' : process) (text : string)
          (ents : list language_v1.Entity),
      extract_content rt w (stdin_line w) = Ok text ->
      analyze_entities w text = Ok ents ->
      Forall (fun e => is_nan (language_v1.salience e) = false) ents ->
      main rt w p = (Ok tt, p') ->
      exists (data shown : list entity_info) (blocks : list string) (count : nat),
        Forall2 record_of ents data /\
        Permutation shown data /\
        StronglySorted (fun a b => float_ge (salience a) (salience b) = true) shown /\
        (forall v,
            List.filter (fun d => float_eq (salience d) v) shown =
            List.filter (fun d => float_eq (salience d) v) data) /\
        Forall2 (block_of rt) shown blocks /\
        files p' !! report_file =
          Some (report_header (stdin_line w) count +:+ str_concat blocks)) /\
  (let out := main Samples.rt Samples.paris_world Samples.fresh in
   analyze_entities Samples.paris_world "Paris and the Eiffel Tower" =
     Ok [Samples.paris; Samples.eiffel] /\
   fst out = Ok tt /\
   exists (report : string) (i j : nat),
     files (snd out) !! report_file = Some report /\
     String.index 0 "Entity: Eiffel Tower" report = Some i /\
     String.index 0 "Entity: Paris" report = Some j /\
     i < j).
Proof.
  split.
  - intros rt w p p' text ents He Hents Hnan Hmain.
    destruct (main_ok _ _ _ _ Hmain) as (r & blocks & Hi & Hr & Hblocks & Hfiles).
    destruct (analyze_content_records _ _ _ _ _ _ He Hents Hr)
      as (va & _ & _ & Hu & Hall & _).
    apply enriched_records in Hall.
    assert (Hok : Forall (fun d => is_nan (salience d) = false) (entities_data r)).
    { destruct (records_fields _ _ Hall) as [_ Hsal].
      apply (Forall_map language_v1.salience (fun x => is_nan x = false)) in Hnan.
      apply (Forall_map salience (fun x => is_nan x = false)).
      now rewrite Hsal. }
    exists (entities_data r), (sorted_entities r), blocks, (entity_count r).
    unfold sorted_entities in *.
    split; [assumption|].
    split; [apply sorted_reverse_perm|].
    split.
    { apply (StronglySorted_weaken (fun d => is_nan (salience d) = false)
               (fun a b => float_lt (salience a) (salience b) = false)).
      - intros a b Ha Hb Hab. apply float_not_lt_ge; eassumption.
      - eapply Permutation_Forall; [symmetry; apply sorted_reverse_perm|exact Hok].
      - apply (sorted_reverse_sorted float_lt salience (fun x => is_nan x = false)).
        + apply float_lt_asym.
        + apply float_lt_ntrans.
        + exact Hok. }
    split.
    { intros v. apply sorted_reverse_filter.
      intros x y Hx Hy. eapply float_eq_not_lt; eassumption. }
    split; [assumption|].
    rewrite Hfiles, lookup_insert_eq, Hu. reflexivity.
  - cbv zeta. split; [reflexivity|]. split; [vm_compute; reflexivity|].
    eexists _, _, _. split; [vm_compute; reflexivity|].
    split; [vm_compute; reflexivity|].
    split; [vm_compute; reflexivity|].
    vm_compute. lia.
Qed.

(** C2. The entity count of the report header is the number of distinct
    names among the entities of the analyzer's response, duplicates
    included in the response or not: whenever the analysis succeeds, the
    count it returns is the length of the duplicate-free list of names, and
    the file starts with the header showing that count. *)
Theorem header_counts_distinct_names
    (rt : runtime) (w : world) (p : process) (text : string)
    (ents : list language_v1.Entity) (r : analysis) :
  client_init w = Ok tt ->
  extract_content rt w (stdin_line w) = Ok text ->
  analyze_entities w text = Ok ents ->
  analyze_content rt w (stdin_line w) = Ok r ->
  entity_count r = length (remove_dups (map language_v1.name ents)) /\
  exists body,
    files (snd (main rt w p)) !! report_file =
      Some (report_header (stdin_line w)
              (length (remove_dups (map language_v1.name ents))) +:+ body).
Proof.
  intros Hi He Hents Hr.
  destruct (analyze_content_records _ _ _ _ _ _ He Hents Hr)
    as (va & _ & _ & Hu & _ & Hc).
  split; [exact Hc|].
  destruct (main_writes rt w p r Hi Hr) as [_ Hfiles].
  rewrite Hfiles, lookup_insert_eq, write_report_run. cbn [snd].
  rewrite Hu, Hc. eauto.
Qed.

(** C3. With an empty entity list in the sentiment response every record
    has no sentiment; otherwise every record has the score and the magnitude
    of the first entity of that list, whichever entity the record is for. *)
Theorem sentiment_from_first_slot
    (rt : runtime) (w : world) (u text : string)
    (sents : list language_v1.Entity) (r : analysis) :
  extract_content rt w u = Ok text ->
  analyze_entity_sentiment w text = Ok sents ->
  analyze_content rt w u = Ok r ->
  (sents = [] -> Forall (fun d => sentiment d = None) (entities_data r)) /\
  (forall first rest,
      sents = first :: rest ->
      Forall (fun d =>
                sentiment d =
                Some {| magnitude := language_v1.magnitude (language_v1.sentiment first);
                        score := language_v1.score (language_v1.sentiment first) |})
             (entities_data r)).
Proof.
  intros He Hs Hr.
  destruct (analyze_content_ok _ _ _ _ Hr) as (text' & va & He' & Hva & _ & Hall & _).
  rewrite He in He'. simplify_eq.
  apply analyze_with_vertex_ok in Hva as [_ Hva]. rewrite Hs in Hva. simplify_eq.
  assert (Hsent : Forall (fun d => sentiment d =
                    match entity_sentiment va with
                    | first :: _ =>
                        Some {| magnitude := language_v1.magnitude (language_v1.sentiment first);
                                score := language_v1.score (language_v1.sentiment first) |}
                    | [] => None
                    end) (entities_data r)).
  { induction Hall as [|e d es ds Hd _ IH]; constructor; [|exact IH].
    destruct (enriched_frame _ _ _ _ Hd) as (_ & _ & _ & _ & _ & ->). reflexivity. }
  split.
  - intros E. now rewrite E in Hsent.
  - intros first rest E. now rewrite E in Hsent.
Qed.

(** C4, as amended.  A lookup that finds nothing is not fatal: the record
    keeps no knowledge-graph field, is appended to the result, and the loop
    goes on with the remaining entities.  A lookup that raises is not
    caught: the loop, and with it the analysis, ends with that exception. *)
Theorem empty_lookup_not_fatal
    (w : world) (va : vertex_analysis) (e : language_v1.Entity)
    (todo : list language_v1.Entity) (acc : list entity_info) (found : gset string) :
  (forall kg_result,
      query_knowledge_graph w (language_v1.name e) = Ok kg_result ->
      kg_empty kg_result = true ->
      knowledge_graph (new_entity_info va e) = None /\
      process_entities w va (e :: todo) acc found =
      process_entities w va todo
        (acc ++ [new_entity_info va e]) (found ∪ {[language_v1.name e]})) /\
  (forall x,
      query_knowledge_graph w (language_v1.name e) = Raise x ->
      process_entities w va (e :: todo) acc found = Raise x).
Proof.
  split.
  - intros j Hq Hj. split; [reflexivity|].
    cbn [process_entities]. rewrite Hq. cbn [res_bind].
    now rewrite (attach_knowledge_graph_empty _ _ Hj).
  - intros x Hq. cbn [process_entities]. now rewrite Hq.
Qed.


(** C6. The block written for an entity is the block the specification
    lays out: name, type, salience with four decimal places, mention count,
    the two sentiment lines with two decimal places only when a sentiment is
    present, the metadata lines only when there are metadata, the
    knowledge-graph section only when the record has one, then the rule.
    A record whose lookup found nothing has no such section.  Without
    sentiment, metadata and knowledge-graph record, the block is the four
    leading lines and the rule, nothing else. *)
Theorem entity_block_layout (rt : runtime) (e : entity_info) (buf : string) :
  kg_well_formed (knowledge_graph e) = true ->
  write_entity rt e buf = (Ok tt, buf +:+ spec_block rt e) /\
  (is_finite (salience e) = true -> has_decimals 4 (format_f 4 (salience e))) /\
  (forall s,
      sentiment e = Some s ->
      is_finite (score s) = true -> is_finite (magnitude s) = true ->
      has_decimals 2 (format_f 2 (score s)) /\
      has_decimals 2 (format_f 2 (magnitude s))) /\
  (sentiment e = None -> sentiment_lines (sentiment e) = "") /\
  (knowledge_graph e = None -> kg_section rt (knowledge_graph e) = "") /\
  (forall kg_result info,
      kg_empty kg_result = true -> knowledge_graph info = None ->
      exists d,
        attach_knowledge_graph kg_result info = Ok d /\
        kg_section rt (knowledge_graph d) = "") /\
  (sentiment e = None -> metadata e = [] -> knowledge_graph e = None ->
   write_entity rt e buf =
   (Ok tt,
    buf +:+ nl +:+ "Entity: " +:+ name e +:+ nl +:+
    "Type: " +:+ type e +:+ nl +:+
    "Salience Score: " +:+ format_f 4 (salience e) +:+ nl +:+
    "Number of Mentions: " +:+ str_of_nat (mentions e) +:+ nl +:+
    str_repeat "-" 40 +:+ nl)).
Proof.
  intros Hkg. split; [now apply write_entity_ok|].
  split; [now apply format_f_decimals|].
  split; [intros s _ Hs Hm; split; now apply format_f_decimals|].
  split; [now intros ->|].
  split; [now intros ->|].
  split.
  { intros j info Hj Hk. exists info.
    split; [now apply attach_knowledge_graph_empty | now rewrite Hk]. }
  intros Hs Hm Hk. rewrite write_entity_ok by assumption.
  unfold spec_block. rewrite Hs, Hm, Hk. reflexivity.
Qed.

(** C7. The report is a function of the analysis results: two runs, in any
    two worlds and from any two states of the files and the console, whose
    analyses return the same results end the same way and leave the same
    text in the report file. *)
Theorem report_deterministic
    (rt : runtime) (w1 w2 : world) (p1 p2 : process) (r : analysis) :
  client_init w1 = Ok tt ->
  client_init w2 = Ok tt ->
  analyze_content rt w1 (stdin_line w1) = Ok r ->
  analyze_content rt w2 (stdin_line w2) = Ok r ->
  fst (main rt w1 p1) = fst (main rt w2 p2) /\
  files (snd (main rt w1 p1)) !! report_file =
  files (snd (main rt w2 p2)) !! report_file.
Proof.
  intros Hi1 Hi2 Hr1 Hr2.
  destruct (main_writes rt w1 p1 r Hi1 Hr1) as [Hf1 Hs1].
  destruct (main_writes rt w2 p2 r Hi2 Hr2) as [Hf2 Hs2].
  rewrite Hf1, Hf2, Hs1, Hs2, !lookup_insert_eq. auto.
Qed.

(** C8. The salience of a record is the salience of the analyzer's entity
    it was built from and nothing changes it: attaching the knowledge-graph
    record keeps it, the records of the analysis carry the saliences of the
    response in its order, and the sort only rearranges those records. *)
Theorem salience_never_mutated
    (rt : runtime) (w : world) (u text : string)
    (ents : list language_v1.Entity) (r : analysis) :
  extract_content rt w u = Ok text ->
  analyze_entities w text = Ok ents ->
  analyze_content rt w u = Ok r ->
  (forall kg_result info d,
      attach_knowledge_graph kg_result info = Ok d -> salience d = salience info) /\
  map salience (entities_data r) = map language_v1.salience ents /\
  Permutation (sorted_entities r) (entities_data r) /\
  Permutation (map salience (sorted_entities r)) (map language_v1.salience ents).
Proof.
  intros He Hents Hr.
  destruct (analyze_content_records _ _ _ _ _ _ He Hents Hr)
    as (va & _ & _ & _ & Hall & _).
  destruct (records_fields _ _ (enriched_records _ _ _ _ Hall)) as [_ Hmap].
  split.
  { intros j info d H. now destruct (attach_knowledge_graph_frame _ _ _ H) as (_ & _ & ? & _). }
  split; [exact Hmap|].
  split; [apply sorted_reverse_perm|].
  rewrite <- Hmap. apply Permutation_map, sorted_reverse_perm.
Qed.


(** C10. When the analyzer returns no entity the run ends normally and
    the report file holds the URL header, the line with the count 0 and the
    header of the detailed analysis, with no block after it. *)
Theorem empty_analysis_report
    (rt : runtime) (w : world) (p : process) (text : string)
    (sents : list language_v1.Entity) :
  client_init w = Ok tt ->
  extract_content rt w (stdin_line w) = Ok text ->
  analyze_entities w text = Ok [] ->
  analyze_entity_sentiment w text = Ok sents ->
  fst (main rt w p) = Ok tt /\
  files (snd (main rt w p)) =
    <[report_file :=
        "Analysis Results for " +:+ stdin_line w +:+ nl +:+
        str_repeat "=" 50 +:+ nl +:+ nl +:+
        "Total Entities Found: 0" +:+ nl +:+ nl +:+
        "Detailed Entity Analysis:" +:+ nl +:+
        str_repeat "=" 50 +:+ nl]> (files p).
Proof.
  intros Hi He Hents Hsents.
  assert (Hr : analyze_content rt w (stdin_line w) =
               Ok {| url := stdin_line w; entities_data := []; entity_count := 0 |}).
  { unfold analyze_content, analyze_with_vertex.
    rewrite He. cbn [res_bind]. rewrite Hents, Hsents. reflexivity. }
  destruct (main_writes rt w p _ Hi Hr) as [Hf Hs].
  rewrite Hf, Hs, write_report_run. cbn [fst snd].
  split; [reflexivity|].
  unfold sorted_entities, report_header. cbn [entities_data sorted_reverse foldr st_for].
  unfold st_ret. cbn [snd url entity_count].
  rewrite !str_app_assoc, str_app_nil_r. reflexivity.
Qed.

(** * The claims on the sample runs *)

(** C1 on the run with a tie: the hypotheses hold there. *)
Lemma report_sorted_by_salience_witness :
  exists (data shown : list entity_info) (blocks : list string) (count : nat),
    Forall2 record_of [Samples.paris; Samples.eiffel; Samples.paris_again] data /\
    Permutation shown data /\
    StronglySorted (fun a b => float_ge (salience a) (salience b) = true) shown /\
    (forall v,
        List.filter (fun d => float_eq (salience d) v) shown =
        List.filter (fun d => float_eq (salience d) v) data) /\
    Forall2 (block_of Samples.rt) shown blocks /\
    files (snd (main Samples.rt Samples.twins_world Samples.fresh)) !! report_file =
      Some (report_header (stdin_line Samples.twins_world) count +:+ str_concat blocks).
Proof.
  apply (proj1 report_sorted_by_salience
           Samples.rt Samples.twins_world Samples.fresh
           (snd (main Samples.rt Samples.twins_world Samples.fresh))
           "Paris and the Eiffel Tower").
  - reflexivity.
  - reflexivity.
  - repeat constructor.
  - vm_compute. reflexivity.
Defined.

(** C2 on the run with a duplicate name: three entities, two names. *)
Lemma header_counts_distinct_names_witness :
  length (remove_dups (map language_v1.name
            [Samples.paris; Samples.eiffel; Samples.paris_again])) = 2 /\
  entity_count Samples.twins_analysis =
    length (remove_dups (map language_v1.name
              [Samples.paris; Samples.eiffel; Samples.paris_again])) /\
  exists body,
    files (snd (main Samples.rt Samples.twins_world Samples.fresh)) !! report_file =
      Some (report_header (stdin_line Samples.twins_world)
              (length (remove_dups (map language_v1.name
                         [Samples.paris; Samples.eiffel; Samples.paris_again])))
            +:+ body).
Proof.
  split; [vm_compute; reflexivity|].
  apply (header_counts_distinct_names
           Samples.rt Samples.twins_world Samples.fresh "Paris and the Eiffel Tower").
  - reflexivity.
  - reflexivity.
  - reflexivity.
  - vm_compute. reflexivity.
Defined.

(** C3 on the run with a sentiment response: every record has the values
    of the first entity of that response. *)
Lemma sentiment_from_first_slot_witness :
  length (entities_data Samples.twins_analysis) = 3 /\
  Forall (fun d =>
            sentiment d = Some {| magnitude := Samples.f_0_95; score := Samples.f_0_5 |})
         (entities_data Samples.twins_analysis).
Proof.
  split; [reflexivity|].
  apply (proj2 (sentiment_from_first_slot
                  Samples.rt Samples.twins_world Samples.the_url
                  "Paris and the Eiffel Tower" [Samples.eiffel_liked; Samples.paris]
                  Samples.twins_analysis
                  ltac:(reflexivity) ltac:(reflexivity) ltac:(vm_compute; reflexivity))
               Samples.eiffel_liked [Samples.paris]).
  reflexivity.
Defined.

(** C4: a lookup that raises ends the analysis and the run; the entity is
    in no result and no report is written. *)
Lemma kg_failure_aborts_run :
  let x := PyExn "ConnectionError" "kgsearch.googleapis.com: connection refused" in
  analyze_entities Samples.kg_down_world "Paris and the Eiffel Tower" =
    Ok [Samples.paris; Samples.eiffel] /\
  query_knowledge_graph Samples.kg_down_world "Paris" = Raise x /\
  analyze_content Samples.rt Samples.kg_down_world Samples.the_url = Raise x /\
  ~ (exists r, analyze_content Samples.rt Samples.kg_down_world Samples.the_url = Ok r) /\
  fst (main Samples.rt Samples.kg_down_world Samples.fresh) = Raise x /\
  files (snd (main Samples.rt Samples.kg_down_world Samples.fresh)) !! report_file = None.
Proof.
  cbv zeta. split; [reflexivity|]. split; [reflexivity|].
  split; [vm_compute; reflexivity|].
  split; [intros [r Hr]; vm_compute in Hr; discriminate Hr|].
  split; vm_compute; reflexivity.
Defined.

(** C4 as amended, on the lookup of the Eiffel Tower, which finds nothing,
    and on the lookup of Paris when the service is down. *)
Lemma empty_lookup_not_fatal_witness :
  (query_knowledge_graph Samples.paris_world "Eiffel Tower" = Ok Samples.kg_nothing /\
   kg_empty Samples.kg_nothing = true /\
   knowledge_graph
     (new_entity_info {| entities := [Samples.paris; Samples.eiffel]; entity_sentiment := [] |}
        Samples.eiffel) = None /\
   process_entities Samples.paris_world
     {| entities := [Samples.paris; Samples.eiffel]; entity_sentiment := [] |}
     [Samples.eiffel; Samples.paris] [] ∅ =
   process_entities Samples.paris_world
     {| entities := [Samples.paris; Samples.eiffel]; entity_sentiment := [] |}
     [Samples.paris]
     ([] ++ [new_entity_info
               {| entities := [Samples.paris; Samples.eiffel]; entity_sentiment := [] |}
               Samples.eiffel])
     (∅ ∪ {["Eiffel Tower"]})) /\
  (query_knowledge_graph Samples.kg_down_world "Paris" =
     Raise (PyExn "ConnectionError" "kgsearch.googleapis.com: connection refused") /\
   process_entities Samples.kg_down_world
     {| entities := [Samples.paris; Samples.eiffel]; entity_sentiment := [] |}
     [Samples.paris; Samples.eiffel] [] ∅ =
   Raise (PyExn "ConnectionError" "kgsearch.googleapis.com: connection refused")).
Proof.
  split.
  - split; [reflexivity|]. split; [reflexivity|].
    apply (proj1 (empty_lookup_not_fatal Samples.paris_world
                    {| entities := [Samples.paris; Samples.eiffel]; entity_sentiment := [] |}
                    Samples.eiffel [Samples.paris] [] ∅) Samples.kg_nothing);
      reflexivity.
  - split; [reflexivity|].
    apply (proj2 (empty_lookup_not_fatal Samples.kg_down_world
                    {| entities := [Samples.paris; Samples.eiffel]; entity_sentiment := [] |}
                    Samples.paris [Samples.eiffel] [] ∅)).
    reflexivity.
Defined.



(** C6 on the record of Paris, which has every optional part. *)
Lemma entity_block_layout_witness :
  kg_well_formed (knowledge_graph Samples.paris_record) = true /\
  write_entity Samples.rt Samples.paris_record "" =
    (Ok tt, "" +:+ spec_block Samples.rt Samples.paris_record) /\
  has_decimals 4 (format_f 4 (salience Samples.paris_record)).
Proof.
  split; [reflexivity|].
  destruct (entity_block_layout Samples.rt Samples.paris_record "" eq_refl)
    as (Hblock & Hdec & _).
  split; [exact Hblock|].
  apply Hdec. reflexivity.
Defined.

(** C7 on two runs with the same analysis: another page, and a process that
    already had a report. *)
Lemma report_deterministic_witness :
  analyze_content Samples.rt Samples.paris_world (stdin_line Samples.paris_world) =
    Ok Samples.paris_analysis /\
  analyze_content Samples.rt Samples.mirror_world (stdin_line Samples.mirror_world) =
    Ok Samples.paris_analysis /\
  fst (main Samples.rt Samples.paris_world Samples.fresh) =
  fst (main Samples.rt Samples.mirror_world Samples.used) /\
  files (snd (main Samples.rt Samples.paris_world Samples.fresh)) !! report_file =
  files (snd (main Samples.rt Samples.mirror_world Samples.used)) !! report_file.
Proof.
  assert (H1 : analyze_content Samples.rt Samples.paris_world
                 (stdin_line Samples.paris_world) = Ok Samples.paris_analysis)
    by (vm_compute; reflexivity).
  assert (H2 : analyze_content Samples.rt Samples.mirror_world
                 (stdin_line Samples.mirror_world) = Ok Samples.paris_analysis)
    by (vm_compute; reflexivity).
  split; [exact H1|]. split; [exact H2|].
  exact (report_deterministic Samples.rt Samples.paris_world Samples.mirror_world
           Samples.fresh Samples.used Samples.paris_analysis eq_refl eq_refl H1 H2).
Defined.

(** C8 on the run with three entities. *)
Lemma salience_never_mutated_witness :
  map salience (entities_data Samples.twins_analysis) =
    [Samples.f_0_8; Samples.f_0_95; Samples.f_0_8] /\
  Permutation (sorted_entities Samples.twins_analysis)
    (entities_data Samples.twins_analysis).
Proof.
  destruct (salience_never_mutated
              Samples.rt Samples.twins_world Samples.the_url "Paris and the Eiffel Tower"
              [Samples.paris; Samples.eiffel; Samples.paris_again] Samples.twins_analysis
              ltac:(reflexivity) ltac:(reflexivity) ltac:(vm_compute; reflexivity))
    as (_ & Hmap & Hperm & _).
  split; [exact Hmap | exact Hperm].
Defined.


(** C10 on the run of a page without entities. *)
Lemma empty_analysis_report_witness :
  analyze_entities Samples.empty_world "Paris and the Eiffel Tower" = Ok [] /\
  fst (main Samples.rt Samples.empty_world Samples.fresh) = Ok tt /\
  files (snd (main Samples.rt Samples.empty_world Samples.fresh)) =
    <[report_file :=
        "Analysis Results for " +:+ stdin_line Samples.empty_world +:+ nl +:+
        str_repeat "=" 50 +:+ nl +:+ nl +:+
        "Total Entities Found: 0" +:+ nl +:+ nl +:+
        "Detailed Entity Analysis:" +:+ nl +:+
        str_repeat "=" 50 +:+ nl]> (files Samples.fresh).
Proof.
  split; [reflexivity|].
  apply (empty_analysis_report Samples.rt Samples.empty_world Samples.fresh
           "Paris and the Eiffel Tower" []); reflexivity.
Defined.

(** * More of the code *)

(** ** The clean-up of the extracted text *)

Lemma list_pair_ind {A : Type} (P : list A -> Prop) :
  P [] -> (forall c, P [c]) ->
  (forall c c' rest, P rest -> P (c' :: rest) -> P (c :: c' :: rest)) ->
  forall s, P s.
Proof.
  intros Hnil Hone Hstep s.
  enough (H : P s /\ forall c, P (c :: s)) by apply H.
  induction s as [|c' rest [IH1 IH2]]; split; auto.
Qed.

Lemma is_linebreak_space (c : N) : is_linebreak c = true -> is_space c = true.
Proof.
  unfold is_linebreak, is_space.
  rewrite !orb_true_iff, !andb_true_iff, !N.leb_le, !N.eqb_eq. lia.
Qed.

Lemma not_space_not_linebreak (c : N) : is_space c = false -> is_linebreak c = false.
Proof.
  intros H. destruct (is_linebreak c) eqn:E; [|reflexivity].
  apply is_linebreak_space in E. congruence.
Qed.

Lemma ink_app (a b : list N) : ink (a ++ b) = ink a ++ ink b.
Proof. apply List.filter_app. Qed.

Lemma ink_all_space (w : list N) : all_space w -> ink w = [].
Proof.
  induction 1 as [|c w Hc _ IH]; [reflexivity|].
  unfold ink in *. cbn [List.filter]. now rewrite Hc.
Qed.

(** *** [strip] *)

Lemma lstrip_split (s : list N) : exists w, s = w ++ lstrip s /\ all_space w.
Proof.
  induction s as [|c s (w & Hs & Hw)]; [exists []; split; [reflexivity|constructor]|].
  cbn [lstrip]. destruct (is_space c) eqn:Hc.
  - exists (c :: w). split; [cbn; now rewrite <- Hs | now constructor].
  - exists []. split; [reflexivity|constructor].
Qed.

Lemma lstrip_starts_clean (s : list N) : starts_clean (lstrip s) = true.
Proof.
  induction s as [|c s IH]; [reflexivity|].
  cbn [lstrip]. destruct (is_space c) eqn:Hc; [exact IH|].
  cbn. now rewrite Hc.
Qed.

Lemma lstrip_fixed (s : list N) : starts_clean s = true -> lstrip s = s.
Proof.
  destruct s as [|c s]; [reflexivity|]. cbn.
  now destruct (is_space c).
Qed.

Lemma rstrip_split (s : list N) : exists w, s = rstrip s ++ w /\ all_space w.
Proof.
  induction s as [|c s (w & Hs & Hw)]; [exists []; split; [reflexivity|constructor]|].
  cbn [rstrip]. destruct (rstrip s) as [|k kept] eqn:Hr.
  - cbn [app] in Hs. subst w. destruct (is_space c) eqn:Hc.
    + exists (c :: s). split; [reflexivity|now constructor].
    + exists s. split; [reflexivity|assumption].
  - exists w. split; [|assumption]. cbn [app]. now rewrite Hs at 1.
Qed.

Lemma rstrip_ends_clean (s : list N) : ends_clean (rstrip s) = true.
Proof.
  induction s as [|c s IH]; [reflexivity|].
  cbn [rstrip]. destruct (rstrip s) as [|k kept] eqn:Hr.
  - destruct (is_space c) eqn:Hc; [reflexivity|]. cbn. now rewrite Hc.
  - exact IH.
Qed.

Lemma rstrip_fixed (s : list N) : ends_clean s = true -> rstrip s = s.
Proof.
  induction s as [|c s IH]; [reflexivity|].
  cbn [ends_clean rstrip]. destruct s as [|c' s'].
  - cbn. now destruct (is_space c).
  - intros H. rewrite (IH H). reflexivity.
Qed.

Lemma rstrip_starts_clean (s : list N) : starts_clean s = true -> starts_clean (rstrip s) = true.
Proof.
  destruct s as [|c s]; [reflexivity|].
  cbn [rstrip starts_clean]. intros Hc.
  destruct (rstrip s); [|exact Hc].
  destruct (is_space c) eqn:E; [discriminate Hc|]. cbn. now rewrite E.
Qed.

Lemma strip_split (s : list N) :
  exists w1 w2, s = w1 ++ strip s ++ w2 /\ all_space w1 /\ all_space w2.
Proof.
  destruct (lstrip_split s) as (w1 & Hs & H1).
  destruct (rstrip_split (lstrip s)) as (w2 & Hl & H2).
  exists w1, w2. unfold strip. rewrite <- Hl. auto.
Qed.

Lemma strip_starts_clean (s : list N) : starts_clean (strip s) = true.
Proof. apply rstrip_starts_clean, lstrip_starts_clean. Qed.

Lemma strip_ends_clean (s : list N) : ends_clean (strip s) = true.
Proof. apply rstrip_ends_clean. Qed.

Lemma strip_fixed (s : list N) :
  starts_clean s = true -> ends_clean s = true -> strip s = s.
Proof. intros H1 H2. unfold strip. now rewrite (lstrip_fixed s H1), rstrip_fixed. Qed.

Lemma ink_strip (s : list N) : ink (strip s) = ink s.
Proof.
  destruct (strip_split s) as (w1 & w2 & Hs & H1 & H2).
  rewrite Hs at 2. rewrite !ink_app, (ink_all_space w1 H1), (ink_all_space w2 H2).
  now rewrite app_nil_r.
Qed.

Lemma ink_nil_all_space (s : list N) : ink s = [] -> all_space s.
Proof.
  induction s as [|c s IH]; [constructor|].
  unfold ink in *. cbn [List.filter]. destruct (is_space c) eqn:Hc; cbn [negb].
  - intros H. constructor; [exact Hc | exact (IH H)].
  - discriminate.
Qed.

Lemma strip_all_space (s : list N) : all_space s -> strip s = [].
Proof.
  intros H. pose proof (ink_strip s) as Hi. rewrite (ink_all_space s H) in Hi.
  pose proof (strip_starts_clean s) as Hc.
  destruct (strip s) as [|c t]; [reflexivity|].
  unfold ink in Hi. cbn in Hi, Hc. destruct (is_space c); discriminate.
Qed.

Lemma Forall_strip (P : N -> Prop) (s : list N) : Forall P s -> Forall P (strip s).
Proof.
  destruct (strip_split s) as (w1 & w2 & Hs & _). intros H. rewrite Hs in H.
  apply Forall_app in H as [_ H]. now apply Forall_app in H as [H _].
Qed.

(** *** Two spaces in a row *)

Lemma no_double_space_app_inv (a b : list N) :
  no_double_space (a ++ b) = true ->
  no_double_space a = true /\ no_double_space b = true.
Proof.
  induction a as [|c a IH]; [now split|].
  cbn [app no_double_space]. destruct a as [|c' a'].
  - cbn [app]. destruct b; [now split|].
    rewrite andb_true_iff. intros [_ H]. now split.
  - cbn [app] in *. rewrite !andb_true_iff. intros [H1 H2].
    destruct (IH H2) as [Ha Hb]. auto.
Qed.

Lemma no_double_space_strip (s : list N) :
  no_double_space s = true -> no_double_space (strip s) = true.
Proof.
  destruct (strip_split s) as (w1 & w2 & Hs & _). intros H. rewrite Hs in H.
  apply no_double_space_app_inv in H as [_ H].
  now apply no_double_space_app_inv in H as [H _].
Qed.

Lemma is_space_SPACE (c : N) : (c =? SPACE)%N = true -> is_space c = true.
Proof. rewrite N.eqb_eq. now intros ->. Qed.

Lemma no_double_space_glue (a b : list N) :
  no_double_space a = true -> ends_clean a = true ->
  starts_clean b = true -> no_double_space b = true ->
  no_double_space (a ++ SPACE :: b) = true.
Proof.
  intros Ha Hea Hb Hnb. induction a as [|c a IH].
  - cbn [app no_double_space]. destruct b as [|c' b]; [reflexivity|].
    rewrite Hnb, andb_true_r. cbn in Hb.
    destruct (c' =? SPACE)%N eqn:E; [|now rewrite andb_false_r].
    apply is_space_SPACE in E. rewrite E in Hb. discriminate.
  - destruct a as [|c' a'].
    + pose proof (IH eq_refl eq_refl) as IH'.
      change (no_double_space (c :: SPACE :: b) = true).
      change (no_double_space (SPACE :: b) = true) in IH'.
      cbn [no_double_space] in IH' |- *. rewrite IH', andb_true_r.
      cbn in Hea. destruct (c =? SPACE)%N eqn:E; [|reflexivity].
      apply is_space_SPACE in E. rewrite E in Hea. discriminate.
    + change (no_double_space (c :: c' :: a') = true) in Ha.
      cbn [no_double_space] in Ha. apply andb_true_iff in Ha as [H1 H2].
      change (no_double_space (c :: c' :: (a' ++ SPACE :: b)) = true).
      cbn [no_double_space]. rewrite H1. apply (IH H2 Hea).
Qed.

Lemma ends_clean_app (a b : list N) : b <> [] -> ends_clean (a ++ b) = ends_clean b.
Proof.
  intros Hb. induction a as [|c a IH]; [reflexivity|].
  cbn [app ends_clean]. destruct (a ++ b) eqn:E; [|exact IH].
  apply app_eq_nil in E as [_ E]. contradiction.
Qed.

(** *** [split] on two spaces *)

Lemma split_spaces_two (c c' : N) (rest : list N) :
  split_spaces (c :: c' :: rest) =
  if ((c =? SPACE) && (c' =? SPACE))%N then [] :: split_spaces rest
  else match split_spaces (c' :: rest) with
       | piece :: pieces => (c :: piece) :: pieces
       | [] => [[c]]
       end.
Proof. reflexivity. Qed.

(** The first piece starts where the string starts. *)
Lemma split_spaces_first (s : list N) :
  exists piece pieces,
    split_spaces s = piece :: pieces /\
    match piece with
    | [] => True
    | x :: _ => hd_error s = Some x
    end.
Proof.
  induction s as [|c | c c' rest _ (p & ps & Hp & _)] using list_pair_ind.
  - now exists [], [].
  - now exists [c], [].
  - rewrite split_spaces_two. destruct ((c =? SPACE) && (c' =? SPACE))%N.
    + now exists [], (split_spaces rest).
    + rewrite Hp. now exists (c :: p), ps.
Qed.

Lemma split_spaces_no_double_space (s : list N) :
  Forall (fun piece => no_double_space piece = true) (split_spaces s).
Proof.
  induction s as [|c | c c' rest IH1 IH2] using list_pair_ind.
  - now repeat constructor.
  - now repeat constructor.
  - rewrite split_spaces_two.
    destruct ((c =? SPACE) && (c' =? SPACE))%N eqn:E; [now constructor|].
    destruct (split_spaces_first (c' :: rest)) as (p & ps & Hp & Hhd).
    rewrite Hp in IH2 |- *. inversion IH2 as [|? ? Hnp Hps]; subst.
    constructor; [|assumption].
    destruct p as [|x p']; [reflexivity|].
    cbn in Hhd. injection Hhd as ->.
    change (no_double_space (c :: x :: p') = true).
    cbn [no_double_space]. rewrite E. exact Hnp.
Qed.

Lemma split_spaces_single (s : list N) :
  no_double_space s = true -> split_spaces s = [s].
Proof.
  induction s as [|c | c c' rest _ IH] using list_pair_ind; try reflexivity.
  intros H. change (no_double_space (c :: c' :: rest)) with
    (negb ((c =? SPACE) && (c' =? SPACE))%N && no_double_space (c' :: rest)) in H.
  apply andb_true_iff in H as [H1 H2].
  rewrite split_spaces_two. apply negb_true_iff in H1. rewrite H1.
  now rewrite (IH H2).
Qed.

Lemma ink_cons (c : N) (s : list N) :
  ink (c :: s) = if is_space c then ink s else c :: ink s.
Proof. unfold ink. cbn [List.filter]. now destruct (is_space c). Qed.

Lemma split_spaces_ink (s : list N) : ink (concat (split_spaces s)) = ink s.
Proof.
  induction s as [|c | c c' rest IH1 IH2] using list_pair_ind.
  - reflexivity.
  - reflexivity.
  - rewrite split_spaces_two.
    destruct ((c =? SPACE) && (c' =? SPACE))%N eqn:E.
    + apply andb_true_iff in E as [E1 E2].
      apply is_space_SPACE in E1, E2.
      cbn [concat app]. now rewrite IH1, !ink_cons, E1, E2.
    + destruct (split_spaces_first (c' :: rest)) as (p & ps & Hp & _).
      rewrite Hp in IH2 |- *. cbn [concat app] in *.
      now rewrite !(ink_cons c), IH2.
Qed.

Lemma split_spaces_Forall (P : N -> Prop) (s : list N) :
  Forall P s -> Forall (Forall P) (split_spaces s).
Proof.
  induction s as [|c | c c' rest IH1 IH2] using list_pair_ind; intros H.
  - now repeat constructor.
  - constructor; [exact H|constructor].
  - inversion H as [|? ? Hc H']; subst. inversion H' as [|? ? Hc' H'']; subst.
    rewrite split_spaces_two. destruct ((c =? SPACE) && (c' =? SPACE))%N.
    + constructor; [constructor|auto].
    + specialize (IH2 H'). destruct (split_spaces (c' :: rest)) as [|p ps].
      * now repeat constructor.
      * inversion IH2; subst. now repeat constructor.
Qed.

(** *** [splitlines] *)

Lemma splitlines_cons (c : N) (rest : list N) :
  splitlines (c :: rest) =
  if is_linebreak c then
    [] :: match rest with
          | c' :: rest' => if ((c =? 13) && (c' =? 10))%N then splitlines rest'
                           else splitlines rest
          | [] => []
          end
  else
    match splitlines rest with
    | line :: lines => (c :: line) :: lines
    | [] => [[c]]
    end.
Proof. reflexivity. Qed.

Lemma splitlines_Forall (P : N -> Prop) (s : list N) :
  Forall P s -> Forall (Forall P) (splitlines s).
Proof.
  induction s as [|c | c c' rest IH1 IH2] using list_pair_ind; intros H.
  - constructor.
  - rewrite splitlines_cons. cbn [splitlines].
    destruct (is_linebreak c).
    + now repeat constructor.
    + constructor; [exact H|constructor].
  - inversion H as [|? ? Hc H']; subst. inversion H' as [|? ? Hc' H'']; subst.
    rewrite splitlines_cons. destruct (is_linebreak c).
    + constructor; [constructor|].
      destruct ((c =? 13) && (c' =? 10))%N; auto.
    + specialize (IH2 H'). destruct (splitlines (c' :: rest)) as [|l ls].
      * now repeat constructor.
      * inversion IH2; subst. now repeat constructor.
Qed.

Lemma splitlines_no_linebreak (s : list N) :
  Forall (Forall (fun c => is_linebreak c = false)) (splitlines s).
Proof.
  induction s as [|c | c c' rest IH1 IH2] using list_pair_ind.
  - constructor.
  - rewrite splitlines_cons. cbn [splitlines].
    destruct (is_linebreak c) eqn:E; now repeat constructor.
  - rewrite splitlines_cons. destruct (is_linebreak c) eqn:E.
    + constructor; [constructor|].
      destruct ((c =? 13) && (c' =? 10))%N; auto.
    + destruct (splitlines (c' :: rest)) as [|l ls].
      * now repeat constructor.
      * inversion IH2; subst. now repeat constructor.
Qed.

Lemma splitlines_single (s : list N) :
  s <> [] -> Forall (fun c => is_linebreak c = false) s -> splitlines s = [s].
Proof.
  induction s as [|c rest IH]; [congruence|]. intros _ H.
  inversion H as [|? ? Hc Hrest]; subst.
  rewrite splitlines_cons, Hc.
  destruct rest as [|c' rest']; [reflexivity|].
  now rewrite IH.
Qed.

Lemma splitlines_ink (s : list N) : ink (concat (splitlines s)) = ink s.
Proof.
  induction s as [|c | c c' rest IH1 IH2] using list_pair_ind.
  - reflexivity.
  - rewrite splitlines_cons. cbn [splitlines]. rewrite ink_cons.
    destruct (is_linebreak c) eqn:E.
    + now rewrite (is_linebreak_space c E).
    + cbn [concat app]. now rewrite ink_cons.
  - rewrite splitlines_cons. destruct (is_linebreak c) eqn:E.
    + rewrite (ink_cons c), (is_linebreak_space c E). cbn [concat app].
      destruct ((c =? 13) && (c' =? 10))%N eqn:E2; [|exact IH2].
      apply andb_true_iff in E2 as [_ E2]. apply N.eqb_eq in E2. subst c'.
      now rewrite IH1, ink_cons.
    + destruct (splitlines (c' :: rest)) as [|l ls].
      * cbn [concat app] in *. now rewrite !(ink_cons c), <- IH2.
      * cbn [concat app] in *. now rewrite !(ink_cons c), IH2.
Qed.

(** *** [join] *)

Lemma join_two (sep x y : list N) (l : list (list N)) :
  join sep (x :: y :: l) = x ++ sep ++ join sep (y :: l).
Proof. reflexivity. Qed.

Lemma join_ink (l : list (list N)) : ink (join [SPACE] l) = ink (concat l).
Proof.
  induction l as [|x l IH]; [reflexivity|].
  destruct l as [|y l].
  - cbn. now rewrite app_nil_r.
  - rewrite join_two. change (concat (x :: y :: l)) with (x ++ concat (y :: l)).
    rewrite !ink_app, IH. reflexivity.
Qed.

Lemma join_Forall (P : N -> Prop) (l : list (list N)) :
  P SPACE -> Forall (Forall P) l -> Forall P (join [SPACE] l).
Proof.
  intros Hsp. induction 1 as [|x l Hx Hl IH]; [constructor|].
  destruct l as [|y l]; [exact Hx|].
  rewrite join_two. apply Forall_app. split; [exact Hx|].
  apply Forall_app. split; [now constructor|exact IH].
Qed.

Lemma join_clean (l : list (list N)) :
  Forall (fun x => nonempty x = true /\ no_double_space x = true /\
                   starts_clean x = true /\ ends_clean x = true) l ->
  no_double_space (join [SPACE] l) = true /\
  starts_clean (join [SPACE] l) = true /\
  ends_clean (join [SPACE] l) = true /\
  (l <> [] -> join [SPACE] l <> []).
Proof.
  induction 1 as [|x l (Hx & Hn & Hs & He) Hl (IHn & IHs & IHe & IHne)].
  - now repeat split.
  - destruct l as [|y l].
    + cbn [join]. repeat split; try assumption. intros _. now destruct x.
    + rewrite join_two. cbn [app].
      assert (Hj : join [SPACE] (y :: l) <> []) by now apply IHne.
      split; [now apply no_double_space_glue|].
      split; [now destruct x|].
      split; [|now destruct x].
      rewrite ends_clean_app by discriminate.
      destruct (join [SPACE] (y :: l)) eqn:E; [contradiction|exact IHe].
Qed.

(** *** The chunks and the cleaned text *)

Lemma Forall_filter_nonempty (P : list N -> Prop) (l : list (list N)) :
  Forall P l -> Forall (fun x => nonempty x = true /\ P x) (List.filter nonempty l).
Proof.
  induction 1 as [|x l Hx _ IH]; [constructor|].
  cbn [List.filter]. destruct (nonempty x) eqn:E; [|exact IH].
  constructor; auto.
Qed.

Lemma chunks_of_clean (s : list N) :
  Forall (fun x => no_double_space x = true /\ starts_clean x = true /\
                   ends_clean x = true /\ Forall (fun c => is_linebreak c = false) x)
         (chunks_of s).
Proof.
  unfold chunks_of. apply Forall_flat_map. apply Forall_map.
  eapply Forall_impl; [apply splitlines_no_linebreak|].
  intros line Hline. cbn beta. apply Forall_map.
  pose proof (split_spaces_no_double_space (strip line)) as Hn.
  pose proof (split_spaces_Forall _ _ (Forall_strip _ _ Hline)) as Hb.
  induction Hn as [|p ps Hp _ IH]; [constructor|].
  inversion Hb; subst. constructor; [|auto].
  split; [now apply no_double_space_strip|].
  split; [apply strip_starts_clean|].
  split; [apply strip_ends_clean|now apply Forall_strip].
Qed.

Lemma ink_concat_filter_nonempty (l : list (list N)) :
  ink (concat (List.filter nonempty l)) = ink (concat l).
Proof.
  induction l as [|x l IH]; [reflexivity|].
  cbn [List.filter concat]. destruct x as [|c x]; cbn [nonempty]; [exact IH|].
  cbn [concat]. now rewrite !ink_app, IH.
Qed.

Lemma ink_concat_map_strip (l : list (list N)) :
  ink (concat (map strip l)) = ink (concat l).
Proof.
  induction l as [|x l IH]; [reflexivity|].
  cbn [map concat]. now rewrite !ink_app, ink_strip, IH.
Qed.

Lemma chunks_of_ink (s : list N) : ink (concat (chunks_of s)) = ink s.
Proof.
  unfold chunks_of. rewrite <- (splitlines_ink s).
  induction (splitlines s) as [|line lines IH]; [reflexivity|].
  cbn [map flat_map concat]. rewrite concat_app, !ink_app, IH.
  now rewrite ink_concat_map_strip, split_spaces_ink, ink_strip.
Qed.

Lemma clean_lines_clean (s : list N) :
  no_double_space (clean_lines s) = true /\
  starts_clean (clean_lines s) = true /\
  ends_clean (clean_lines s) = true /\
  Forall (fun c => is_linebreak c = false) (clean_lines s).
Proof.
  pose proof (Forall_filter_nonempty _ _ (chunks_of_clean s)) as H.
  unfold clean_lines. split; [|split; [|split]].
  1-3: eapply join_clean, Forall_impl; [exact H|]; cbn beta; tauto.
  apply join_Forall; [reflexivity|].
  eapply Forall_impl; [exact H|]. cbn beta. tauto.
Qed.

Lemma clean_lines_ink (s : list N) : ink (clean_lines s) = ink s.
Proof.
  unfold clean_lines.
  now rewrite join_ink, ink_concat_filter_nonempty, chunks_of_ink.
Qed.

Lemma clean_lines_fixed (s : list N) :
  Forall (fun c => is_linebreak c = false) s ->
  no_double_space s = true -> starts_clean s = true -> ends_clean s = true ->
  clean_lines s = s.
Proof.
  intros Hb Hn Hs He. destruct s as [|c s]; [reflexivity|].
  unfold clean_lines, chunks_of.
  rewrite splitlines_single by (discriminate || assumption).
  cbn [map flat_map]. rewrite strip_fixed by assumption.
  rewrite split_spaces_single by assumption.
  cbn [map app]. rewrite strip_fixed by assumption.
  reflexivity.
Qed.

(** ** More on the analysis *)

(** Processing a list is processing its first part, then the rest with what
    the first part produced. *)
Lemma process_entities_app (w : world) (va : vertex_analysis)
    (pre rest : list language_v1.Entity) (ds acc : list entity_info)
    (found : gset string) :
  Forall2 (enriched w va) pre ds ->
  process_entities w va (pre ++ rest) acc found =
  process_entities w va rest (acc ++ ds)
    (found ∪ list_to_set (map language_v1.name pre)).
Proof.
  intros H. revert acc found.
  induction H as [|e d pre ds (j & Hq & Ha) _ IH]; intros acc found.
  - cbn [app map]. now rewrite app_nil_r, list_to_set_nil, (right_id_L ∅ (∪)).
  - cbn [app map process_entities]. rewrite Hq. cbn [res_bind]. rewrite Ha.
    cbn [res_bind]. rewrite IH, <- app_assoc, list_to_set_cons, (assoc_L (∪)).
    reflexivity.
Qed.

Lemma attach_knowledge_graph_first (items item : list (string * json))
    (others : list json) (result : json) (info : entity_info) :
  dict_get "itemListElement" items = Some (JArr (JObj item :: others)) ->
  dict_get "result" item = Some result ->
  attach_knowledge_graph (JObj items) info = Ok (set_knowledge_graph info result).
Proof.
  intros Hl Hr. unfold attach_knowledge_graph, py_contains, py_getitem, dict_has.
  rewrite Hl. cbn [res_bind py_truthy py_getitem0]. unfold dict_has. now rewrite Hr.
Qed.

Lemma attach_knowledge_graph_shaped (kg_result : json) (info : entity_info) :
  kg_reply_shaped kg_result = true ->
  exists d, attach_knowledge_graph kg_result info = Ok d.
Proof.
  unfold kg_reply_shaped. intros H.
  destruct kg_result as [| | | | | |items]; try discriminate H.
  destruct (dict_get "itemListElement" items) as [l|] eqn:Hl.
  - destruct l as [| | | | |[|[| | | | | |item] others]|]; try discriminate H.
    + exists info. apply attach_knowledge_graph_empty. unfold kg_empty. now rewrite Hl.
    + destruct (dict_get "result" item) as [result|] eqn:Hr.
      * eexists. eapply attach_knowledge_graph_first; eassumption.
      * exists info. apply attach_knowledge_graph_empty. unfold kg_empty, dict_has.
        now rewrite Hl, Hr.
  - exists info. apply attach_knowledge_graph_empty. unfold kg_empty. now rewrite Hl.
Qed.

Lemma remove_dups_fixed (l : list string) : NoDup l -> remove_dups l = l.
Proof.
  induction 1 as [|x l Hx _ IH]; [reflexivity|].
  cbn [remove_dups]. case_decide; [contradiction|]. now rewrite IH.
Qed.

Lemma remove_dups_length_eq (l : list string) :
  length (remove_dups l) = length l <-> NoDup l.
Proof.
  split.
  - intros H. destruct (decide (NoDup l)) as [Hd|Hd]; [exact Hd|].
    apply remove_dups_length_lt in Hd. lia.
  - intros H. now rewrite remove_dups_fixed.
Qed.

(** ** More on the sort *)



(** ** More on the report *)

(** A loop that raised wrote what the iterations before the failing one
    write, then what the failing one wrote, and went no further. *)
Lemma st_for_raise {A : Type} (body : A -> ST string unit) (l : list A)
    (buf buf' : string) (e : pyexn) :
  (forall x, appends (body x)) ->
  st_for l body buf = (Raise e, buf') ->
  exists done bad rest outs partial,
    l = done ++ bad :: rest /\
    Forall2 (fun x out => body x "" = (Ok tt, out)) done outs /\
    body bad "" = (Raise e, partial) /\
    buf' = buf +:+ str_concat outs +:+ partial.
Proof.
  intros Hb. revert buf. induction l as [|x l IH]; intros buf H; cbn [st_for] in H.
  - discriminate H.
  - unfold st_bind in H. rewrite (Hb x buf) in H.
    destruct (body x "") as [[[]|e'] out] eqn:Hx; cbn [fst snd] in H.
    + destruct (IH _ H) as (done & bad & rest & outs & partial & -> & Hall & Hbad & ->).
      exists (x :: done), bad, rest, (out :: outs), partial.
      split; [reflexivity|]. split; [now constructor|]. split; [assumption|].
      cbn [str_concat foldr]. now rewrite !str_app_assoc.
    + simplify_eq. exists [], x, l, [], out.
      split; [reflexivity|]. split; [constructor|]. split; [assumption|].
      reflexivity.
Qed.

Lemma write_knowledge_graph_raises (rt : runtime) (items : list (string * json)) :
  kg_well_formed (Some (JObj items)) = false ->
  exists x out, write_knowledge_graph rt (JObj items) "" = (Raise x, out).
Proof.
  unfold kg_well_formed, write_knowledge_graph.
  unfold st_bind, f_write, st_lift, st_when, st_ret, py_contains, py_getitem, dict_has.
  intros H.
  destruct (dict_get "description" items) as [v1|];
    destruct (dict_get "@type" items) as [v2|];
    destruct (dict_get "detailedDescription" items) as [[| | | | | |d]|];
    try discriminate H;
    try (unfold dict_has in H; destruct (dict_get "articleBody" d) as [v3|];
         [discriminate H|]);
    eexists _, _; reflexivity.
Qed.

(** The section title is written first, whatever follows. *)
Lemma write_knowledge_graph_title (rt : runtime) (kg_info : json) (buf : string) :
  exists out,
    snd (write_knowledge_graph rt kg_info buf) =
    buf +:+ "Knowledge Graph Information:" +:+ nl +:+ out.
Proof.
  unfold write_knowledge_graph. rewrite st_bind_write.
  match goal with
  | |- context [snd (?c (buf +:+ ?t))] =>
      assert (Hc : appends c) by appends_tac;
      rewrite (Hc (buf +:+ t)); exists (snd (c ""))
  end.
  cbn [snd]. now rewrite !str_app_assoc.
Qed.

(** A loop over a list that holds an element on which the body raises does
    not run to its end. *)
Lemma st_for_raises {A : Type} (body : A -> ST string unit) (l : list A)
    (bad : A) (buf : string) :
  (forall x, appends (body x)) ->
  In bad l ->
  (exists x out, body bad "" = (Raise x, out)) ->
  exists x buf', st_for l body buf = (Raise x, buf').
Proof.
  intros Hb Hin (x & out & Hbad). revert buf.
  induction l as [|y l IH]; intros buf; [destruct Hin|].
  cbn [st_for]. unfold st_bind. rewrite (Hb y buf).
  destruct (body y "") as [[[]|x'] out'] eqn:Hy; cbn [fst snd]; [|eauto].
  destruct Hin as [->|Hin]; [congruence|]. now apply IH.
Qed.

(** The order in which the records are shown, for saliences that are
    numbers: sorted by [>=], equal saliences in the order of the records. *)
Lemma sorted_entities_order (r : analysis) :
  Forall (fun d => is_nan (salience d) = false) (entities_data r) ->
  Permutation (sorted_entities r) (entities_data r) /\
  StronglySorted (fun a b => float_ge (salience a) (salience b) = true)
    (sorted_entities r) /\
  (forall v,
      List.filter (fun d => float_eq (salience d) v) (sorted_entities r) =
      List.filter (fun d => float_eq (salience d) v) (entities_data r)).
Proof.
  intros Hok. unfold sorted_entities.
  split; [apply sorted_reverse_perm|]. split.
  - apply (StronglySorted_weaken (fun d => is_nan (salience d) = false)
             (fun a b => float_lt (salience a) (salience b) = false)).
    + intros a b Ha Hb Hab. apply float_not_lt_ge; eassumption.
    + eapply Permutation_Forall; [symmetry; apply sorted_reverse_perm|exact Hok].
    + apply (sorted_reverse_sorted float_lt salience (fun x => is_nan x = false)).
      * apply float_lt_asym.
      * apply float_lt_ntrans.
      * exact Hok.
  - intros v. apply sorted_reverse_filter.
    intros x y Hx Hy. eapply float_eq_not_lt; eassumption.
Qed.

(** ** More on the run *)

Lemma main_console_raise (rt : runtime) (w : world) (p : process) (e : pyexn) :
  fst (main rt w p) = Raise e ->
  stdout (snd (main rt w p)) = stdout p +:+ "Enter the URL to analyze: " \/
  stdout (snd (main rt w p)) = stdout p +:+ console_start (stdin_line w).
Proof.
  unfold main, st_bind, input, st_lift, print, with_open_w, console_start.
  destruct (client_init w) as [[]|x]; [|now left].
  destruct (analyze_content rt w (stdin_line w)) as [r|x].
  - destruct (write_report rt r "") as [[[]|x] out]; cbn [fst snd stdout].
    + discriminate.
    + intros _. right. now rewrite !str_app_assoc.
  - intros _. right. cbn [snd stdout]. now rewrite !str_app_assoc.
Qed.

Lemma main_console_ok (rt : runtime) (w : world) (p p' : process) :
  main rt w p = (Ok tt, p') ->
  exists r,
    analyze_content rt w (stdin_line w) = Ok r /\
    stdout p' =
      stdout p +:+ console_start (stdin_line w) +:+ console_end (entity_count r).
Proof.
  unfold main, st_bind, input, st_lift, print, with_open_w, console_start, console_end.
  destruct (client_init w) as [[]|x]; [|discriminate].
  destruct (analyze_content rt w (stdin_line w)) as [r|x]; [|discriminate].
  destruct (write_report rt r "") as [[[]|x] out]; [|discriminate].
  intros H. simplify_eq. exists r. split; [reflexivity|].
  cbn [stdout]. now rewrite !str_app_assoc.
Qed.

(** * Properties of the code beyond the claims *)

Lemma Forall_exists_Forall2 {A B : Type} (R : A -> B -> Prop) (l : list A) :
  Forall (fun x => exists y, R x y) l -> exists l', Forall2 R l l'.
Proof.
  induction 1 as [|x l [y Hy] _ [l' IH]]; [now exists []|].
  exists (y :: l'). now constructor.
Qed.


(** X1. The text that lines 47-49 produce is in normal form: it has no two
    spaces in a row, no line boundary, and neither starts nor ends with
    white space. *)
Theorem cleaned_text_normal_form (s : list N) :
  no_double_space (clean_lines s) = true /\
  Forall (fun c => is_linebreak c = false) (clean_lines s) /\
  starts_clean (clean_lines s) = true /\
  ends_clean (clean_lines s) = true.
Proof.
  destruct (clean_lines_clean s) as (H1 & H2 & H3 & H4). auto.
Qed.

(** X2. The clean-up changes white space only: the characters of the result
    that are not white space are those of the text, in the same order. *)
Theorem cleaned_text_keeps_ink (s : list N) : ink (clean_lines s) = ink s.
Proof. apply clean_lines_ink. Qed.

(** X3. Cleaning a cleaned text changes nothing. *)
Theorem clean_lines_idempotent (s : list N) :
  clean_lines (clean_lines s) = clean_lines s.
Proof.
  destruct (clean_lines_clean s) as (H1 & H2 & H3 & H4).
  now apply clean_lines_fixed.
Qed.

(** X4. The cleaned text is empty exactly when the text holds nothing but
    white space (the empty text included). *)
Theorem cleaned_text_empty_iff_blank (s : list N) :
  clean_lines s = [] <-> all_space s.
Proof.
  split; intros H.
  - apply ink_nil_all_space. now rewrite <- clean_lines_ink, H.
  - pose proof (clean_lines_ink s) as Hi. rewrite (ink_all_space s H) in Hi.
    destruct (clean_lines_clean s) as (_ & Hs & _).
    destruct (clean_lines s) as [|c t]; [reflexivity|].
    rewrite ink_cons in Hi. cbn in Hs. destruct (is_space c); discriminate.
Qed.

(** X5. Every record of the analysis has the name, the type name, the
    salience, the metadata and the number of mentions of the entity at the
    same position of the analyzer's response. *)
Theorem records_follow_entities
    (rt : runtime) (w : world) (u text : string)
    (ents : list language_v1.Entity) (r : analysis) :
  extract_content rt w u = Ok text ->
  analyze_entities w text = Ok ents ->
  analyze_content rt w u = Ok r ->
  Forall2 copied_from ents (entities_data r).
Proof.
  intros He Hents Hr.
  destruct (analyze_content_records _ _ _ _ _ _ He Hents Hr)
    as (va & _ & _ & _ & Hall & _).
  eapply Forall2_impl; [exact Hall|]. apply enriched_copied.
Qed.

(** X6. Of a reply only the first item counts: when it is an object with a
    [result], that result becomes the record's knowledge-graph field,
    whatever the further items and the other keys are. *)
Theorem first_result_attached
    (items item : list (string * json)) (others : list json)
    (result : json) (info : entity_info) :
  dict_get "itemListElement" items = Some (JArr (JObj item :: others)) ->
  dict_get "result" item = Some result ->
  exists d,
    attach_knowledge_graph (JObj items) info = Ok d /\
    knowledge_graph d = Some result /\
    same_but_kg d info.
Proof.
  intros Hl Hr. exists (set_knowledge_graph info result).
  split; [now apply attach_knowledge_graph_first with (item := item) (others := others)|].
  split; [reflexivity|repeat split].
Qed.

(** X7. A reply that decodes to [null], a boolean or a number is fatal: the
    membership test on it raises a TypeError, which ends the loop. *)
Theorem scalar_reply_raises_type_error
    (w : world) (va : vertex_analysis) (e : language_v1.Entity)
    (todo : list language_v1.Entity) (acc : list entity_info) (found : gset string)
    (kg_result : json) :
  query_knowledge_graph w (language_v1.name e) = Ok kg_result ->
  is_scalar kg_result = true ->
  exists msg, process_entities w va (e :: todo) acc found = Raise (TypeError msg).
Proof.
  intros Hq Hs. cbn [process_entities]. rewrite Hq. cbn [res_bind].
  destruct kg_result; try discriminate Hs; eexists; reflexivity.
Qed.

(** X8. When the page is fetched, both analyzer calls answer and every
    lookup returns a reply of the documented shape, the analysis succeeds
    and has one record for each entity. *)
Theorem analysis_succeeds_on_shaped_replies
    (rt : runtime) (w : world) (u text : string)
    (ents sents : list language_v1.Entity) :
  extract_content rt w u = Ok text ->
  analyze_entities w text = Ok ents ->
  analyze_entity_sentiment w text = Ok sents ->
  Forall (fun e => exists kg_result,
              query_knowledge_graph w (language_v1.name e) = Ok kg_result /\
              kg_reply_shaped kg_result = true) ents ->
  exists r,
    analyze_content rt w u = Ok r /\
    url r = u /\
    Forall2 copied_from ents (entities_data r).
Proof.
  intros He Hents Hsents Hall.
  set (va := {| entities := ents; entity_sentiment := sents |}).
  assert (Hen : Forall (fun e => exists d, enriched w va e d) ents).
  { eapply Forall_impl; [exact Hall|]. intros e (j & Hq & Hj).
    destruct (attach_knowledge_graph_shaped j (new_entity_info va e) Hj) as [d Hd].
    exists d, j. auto. }
  destruct (Forall_exists_Forall2 _ _ Hen) as [ds Hds].
  pose proof (process_entities_app w va ents [] ds [] ∅ Hds) as Hp.
  rewrite app_nil_r in Hp. cbn [process_entities app] in Hp.
  eexists. unfold analyze_content, analyze_with_vertex.
  rewrite He. cbn [res_bind]. rewrite Hents, Hsents. cbn [res_bind entities].
  fold va. rewrite Hp. cbn [res_bind fst snd].
  split; [reflexivity|]. split; [reflexivity|]. cbn [entities_data].
  eapply Forall2_impl; [exact Hds|]. apply enriched_copied.
Qed.

(** X9. The loop ends with the exception of the first lookup that raises,
    wherever that entity stands in the response: the records built before it
    are dropped and nothing is returned. *)
Theorem first_failing_lookup_ends_analysis
    (w : world) (va : vertex_analysis) (pre post : list language_v1.Entity)
    (e : language_v1.Entity) (acc : list entity_info) (found : gset string)
    (x : pyexn) :
  Forall (fun e' => exists d, enriched w va e' d) pre ->
  query_knowledge_graph w (language_v1.name e) = Raise x ->
  process_entities w va (pre ++ e :: post) acc found = Raise x.
Proof.
  intros Hpre Hq. destruct (Forall_exists_Forall2 _ _ Hpre) as [ds Hds].
  rewrite (process_entities_app _ _ _ _ _ _ _ Hds).
  cbn [process_entities]. now rewrite Hq.
Qed.

(** X10. The entity count of an analysis equals the number of its records
    exactly when no two records have the same name. *)
Theorem count_equals_records_iff_distinct
    (rt : runtime) (w : world) (u : string) (r : analysis) :
  analyze_content rt w u = Ok r ->
  (entity_count r = length (entities_data r) <->
   NoDup (map name (entities_data r))).
Proof.
  intros Hr.
  destruct (analyze_content_ok _ _ _ _ Hr) as (text & va & _ & _ & _ & Hall & Hc).
  destruct (records_fields _ _ (enriched_records _ _ _ _ Hall)) as [Hnames _].
  rewrite Hc, size_list_to_set_distinct, Hnames.
  rewrite <- (length_map name (entities_data r)), Hnames.
  apply remove_dups_length_eq.
Qed.

(** X11. Whatever the outcome of the run, no file other than the report is
    created, changed or removed. *)
Theorem other_files_untouched
    (rt : runtime) (w : world) (p : process) (path : string) :
  path <> report_file ->
  files (snd (main rt w p)) !! path = files p !! path.
Proof.
  intros Hpath.
  destruct (client_init w) as [[]|x] eqn:Hi.
  2: { destruct (main_init_raises rt w p x Hi) as [_ ->]. reflexivity. }
  destruct (analyze_content rt w (stdin_line w)) as [r|x] eqn:Ha.
  2: { destruct (main_analysis_raises rt w p x Hi Ha) as [_ ->]. reflexivity. }
  destruct (main_writes rt w p r Hi Ha) as [_ ->].
  now apply lookup_insert_ne.
Qed.

(** X12. After a run that ends normally the console shows the prompt, the
    line announcing the analysis and the completion message, and the count
    it reports is the count of the report header. *)
Theorem console_agrees_with_report
    (rt : runtime) (w : world) (p p' : process) :
  main rt w p = (Ok tt, p') ->
  exists (count : nat) (body : string),
    stdout p' =
      stdout p +:+ console_start (stdin_line w) +:+ console_end count /\
    files p' !! report_file =
      Some (report_header (stdin_line w) count +:+ body).
Proof.
  intros H.
  destruct (main_console_ok _ _ _ _ H) as (r & Hr & Hout).
  destruct (main_ok _ _ _ _ H) as (r' & blocks & _ & Hr' & _ & Hfiles).
  rewrite Hr in Hr'. simplify_eq.
  destruct (analyze_content_ok _ _ _ _ Hr) as (_ & _ & _ & _ & Hu & _).
  exists (entity_count r'), (str_concat blocks).
  split; [exact Hout|]. now rewrite Hfiles, lookup_insert_eq, Hu.
Qed.

(** X13. A run that ends with an exception never prints the completion
    message: the console shows the prompt, and the line announcing the
    analysis when the constructor succeeded, and nothing more. *)
Theorem no_completion_message_on_failure
    (rt : runtime) (w : world) (p : process) (e : pyexn) :
  fst (main rt w p) = Raise e ->
  stdout (snd (main rt w p)) = stdout p +:+ "Enter the URL to analyze: " \/
  stdout (snd (main rt w p)) = stdout p +:+ console_start (stdin_line w).
Proof. apply main_console_raise. Qed.

(** X14. A knowledge-graph record that is an object whose
    [detailedDescription] is there without being an object with an
    [articleBody] makes the run fail after the analysis succeeded.  The run
    ends with an exception, and the report file holds the header, the
    complete blocks of some of the entities, and the part written of the
    block at which the exception was raised; that block has no end and the
    blocks of the remaining entities are missing. *)
Theorem render_failure_leaves_partial_report
    (rt : runtime) (w : world) (p : process) (r : analysis)
    (bad : entity_info) (items : list (string * json)) :
  client_init w = Ok tt ->
  analyze_content rt w (stdin_line w) = Ok r ->
  In bad (entities_data r) ->
  knowledge_graph bad = Some (JObj items) ->
  kg_well_formed (Some (JObj items)) = false ->
  exists (x : pyexn) (done rest : list entity_info) (failing : entity_info)
         (blocks : list string) (partial : string),
    fst (main rt w p) = Raise x /\
    Permutation (done ++ failing :: rest) (entities_data r) /\
    Forall2 (block_of rt) done blocks /\
    write_entity rt failing "" = (Raise x, partial) /\
    files (snd (main rt w p)) !! report_file =
      Some (report_header (url r) (entity_count r) +:+
            str_concat blocks +:+ partial).
Proof.
  intros Hi Hr Hin Hk Hwf.
  destruct (main_writes rt w p r Hi Hr) as [Hf Hs].
  rewrite Hf, Hs, lookup_insert_eq, write_report_run. cbn [fst snd].
  assert (Hbad : exists x out, write_entity rt bad "" = (Raise x, out)).
  { destruct (write_knowledge_graph_raises rt items Hwf) as (x & out & Hx).
    rewrite write_entity_run, Hk, Hx. eauto. }
  assert (Hin' : In bad (sorted_entities r)).
  { eapply Permutation_in; [symmetry; apply sorted_reverse_perm|exact Hin]. }
  destruct (st_for_raises _ _ _ "" (write_entity_appends rt) Hin' Hbad)
    as (x & body & Hfor).
  destruct (st_for_raise _ _ _ _ _ (write_entity_appends rt) Hfor)
    as (done & failing & rest & blocks & partial & Hsplit & Hdone & Hfail & ->).
  rewrite Hfor. cbn [fst snd].
  exists x, done, rest, failing, blocks, partial.
  split; [reflexivity|].
  split; [rewrite <- Hsplit; apply sorted_reverse_perm|].
  split; [exact Hdone|]. split; [exact Hfail|].
  now rewrite str_app_nil_l.
Qed.

(** X15. Writing the section of a knowledge-graph record that is an object
    whose [detailedDescription] is there without being an object with an
    [articleBody] always raises, and the title of the section has been
    written by then. *)
Theorem ill_shaped_record_raises
    (rt : runtime) (items : list (string * json)) (buf : string) :
  kg_well_formed (Some (JObj items)) = false ->
  exists x out,
    write_knowledge_graph rt (JObj items) buf =
    (Raise x, buf +:+ "Knowledge Graph Information:" +:+ nl +:+ out).
Proof.
  intros Hwf.
  destruct (write_knowledge_graph_raises rt items Hwf) as (x & out' & Hx).
  destruct (write_knowledge_graph_title rt (JObj items) buf) as (out & Hout).
  exists x, out.
  rewrite (write_knowledge_graph_appends rt (JObj items) buf), Hx in Hout |- *.
  cbn [fst snd] in Hout |- *. now rewrite Hout.
Qed.


(** X17. In a run that ended normally, with saliences that are numbers
    and knowledge-graph records of the documented shape, the report file
    holds exactly the header followed by the blocks that the specification
    lays out, in the order of the report: the records sorted by [>=] on the
    salience, equal saliences in the order of the analysis.  What the file
    held before is gone. *)
Theorem report_of_well_formed_analysis
    (rt : runtime) (w : world) (p p' : process) (r : analysis) :
  main rt w p = (Ok tt, p') ->
  analyze_content rt w (stdin_line w) = Ok r ->
  Forall (fun d => is_nan (salience d) = false) (entities_data r) ->
  Forall (fun d => kg_well_formed (knowledge_graph d) = true) (entities_data r) ->
  exists shown : list entity_info,
    Permutation shown (entities_data r) /\
    StronglySorted (fun a b => float_ge (salience a) (salience b) = true) shown /\
    (forall v,
        List.filter (fun d => float_eq (salience d) v) shown =
        List.filter (fun d => float_eq (salience d) v) (entities_data r)) /\
    files p' =
      <[report_file :=
          report_header (url r) (entity_count r) +:+
          str_concat (map (spec_block rt) shown)]> (files p).
Proof.
  intros Hmain Hr Hnan Hwf.
  destruct (main_ok _ _ _ _ Hmain) as (r' & blocks & _ & Hr' & Hblocks & Hfiles).
  rewrite Hr in Hr'. simplify_eq.
  destruct (sorted_entities_order r' Hnan) as (Hperm & Hsorted & Hstable).
  exists (sorted_entities r').
  split; [exact Hperm|]. split; [exact Hsorted|]. split; [exact Hstable|].
  rewrite Hfiles. do 3 f_equal.
  assert (Hwf' : Forall (fun d => kg_well_formed (knowledge_graph d) = true)
                   (sorted_entities r')).
  { eapply Permutation_Forall; [symmetry; exact Hperm|exact Hwf]. }
  clear -Hblocks Hwf'.
  induction Hblocks as [|d b ds bs Hb _ IH]; [reflexivity|].
  inversion Hwf' as [|? ? Hd Hds]; subst. cbn [map].
  unfold block_of in Hb. rewrite (write_entity_ok rt d "" Hd) in Hb.
  simplify_eq. rewrite str_app_nil_l. f_equal. now apply IH.
Qed.

(** * The further properties on sample runs *)

(** X4 on a text of two spaces and a line feed. *)
Lemma cleaned_text_empty_iff_blank_witness :
  all_space [32; 32; 10]%N /\ clean_lines [32; 32; 10]%N = [].
Proof.
  assert (H : all_space [32; 32; 10]%N) by (repeat constructor).
  split; [exact H|].
  exact (proj2 (cleaned_text_empty_iff_blank [32; 32; 10]%N) H).
Defined.

(** X5 on the run with three entities. *)
Lemma records_follow_entities_witness :
  Forall2 copied_from [Samples.paris; Samples.eiffel; Samples.paris_again]
    (entities_data Samples.twins_analysis).
Proof.
  apply (records_follow_entities
           Samples.rt Samples.twins_world Samples.the_url "Paris and the Eiffel Tower").
  - reflexivity.
  - reflexivity.
  - vm_compute. reflexivity.
Defined.

(** X6 on a reply with two items: the first one is attached. *)
Lemma first_result_attached_witness :
  exists d,
    attach_knowledge_graph (JObj Edge.two_items)
      (new_entity_info {| entities := []; entity_sentiment := [] |} Samples.paris) = Ok d /\
    knowledge_graph d = Some (JObj [("name", JStr "first")]) /\
    same_but_kg d
      (new_entity_info {| entities := []; entity_sentiment := [] |} Samples.paris).
Proof.
  apply (first_result_attached Edge.two_items
           [("resultScore", JInt 12); ("result", JObj [("name", JStr "first")])]
           [JObj [("result", JObj [("name", JStr "second")])]]).
  - reflexivity.
  - reflexivity.
Defined.

(** X7 on the service that answers [null]. *)
Lemma scalar_reply_raises_type_error_witness :
  query_knowledge_graph Edge.null_world "Paris" = Ok JNull /\
  exists msg,
    process_entities Edge.null_world
      {| entities := [Samples.paris; Samples.eiffel]; entity_sentiment := [] |}
      [Samples.paris; Samples.eiffel] [] ∅ = Raise (TypeError msg).
Proof.
  split; [reflexivity|].
  apply (scalar_reply_raises_type_error Edge.null_world _ Samples.paris
           [Samples.eiffel] [] ∅ JNull); reflexivity.
Defined.

(** X8 on the run of the specification's example. *)
Lemma analysis_succeeds_on_shaped_replies_witness :
  exists r,
    analyze_content Samples.rt Samples.paris_world Samples.the_url = Ok r /\
    url r = Samples.the_url /\
    Forall2 copied_from [Samples.paris; Samples.eiffel] (entities_data r).
Proof.
  apply (analysis_succeeds_on_shaped_replies
           Samples.rt Samples.paris_world Samples.the_url
           "Paris and the Eiffel Tower" [Samples.paris; Samples.eiffel] []).
  - reflexivity.
  - reflexivity.
  - reflexivity.
  - constructor; [exists Samples.paris_kg; split; reflexivity|].
    constructor; [exists Samples.kg_nothing; split; reflexivity|].
    constructor.
Defined.

(** X9 on a response whose second entity has a lookup that raises. *)
Lemma first_failing_lookup_ends_analysis_witness :
  process_entities Edge.flaky_world
    {| entities := [Samples.eiffel; Samples.paris; Samples.paris_again];
       entity_sentiment := [] |}
    ([Samples.eiffel] ++ Samples.paris :: [Samples.paris_again]) [] ∅ =
  Raise (PyExn "ReadTimeout" "kgsearch.googleapis.com: read timed out").
Proof.
  apply first_failing_lookup_ends_analysis.
  - constructor; [|constructor].
    eexists. exists Samples.kg_nothing. split; reflexivity.
  - reflexivity.
Defined.

(** X10 on the analysis of the example, whose two names differ. *)
Lemma count_equals_records_iff_distinct_witness :
  NoDup (map name (entities_data Samples.paris_analysis)) /\
  entity_count Samples.paris_analysis = length (entities_data Samples.paris_analysis).
Proof.
  assert (H : NoDup (map name (entities_data Samples.paris_analysis))).
  { apply NoDup_cons. split; [|apply NoDup_cons; split; [|constructor]].
    - intros Hin. apply list_elem_of_singleton in Hin. discriminate Hin.
    - intros Hin. inversion Hin. }
  split; [exact H|].
  apply (proj2 (count_equals_records_iff_distinct
                  Samples.rt Samples.paris_world Samples.the_url Samples.paris_analysis
                  ltac:(vm_compute; reflexivity))).
  exact H.
Defined.

(** X11 on a process that has a file of its own. *)
Lemma other_files_untouched_witness :
  "notes.txt" <> report_file /\
  files (snd (main Samples.rt Samples.paris_world Edge.busy)) !! "notes.txt" =
    Some "keep me".
Proof.
  assert (H : "notes.txt" <> report_file) by discriminate.
  split; [exact H|].
  rewrite (other_files_untouched Samples.rt Samples.paris_world Edge.busy "notes.txt" H).
  reflexivity.
Defined.

(** X12 on the run of the example. *)
Lemma console_agrees_with_report_witness :
  exists (count : nat) (body : string),
    stdout (snd (main Samples.rt Samples.paris_world Samples.fresh)) =
      stdout Samples.fresh +:+ console_start (stdin_line Samples.paris_world) +:+
      console_end count /\
    files (snd (main Samples.rt Samples.paris_world Samples.fresh)) !! report_file =
      Some (report_header (stdin_line Samples.paris_world) count +:+ body).
Proof.
  apply (console_agrees_with_report Samples.rt Samples.paris_world Samples.fresh).
  vm_compute. reflexivity.
Defined.

(** X13 on the unreachable host. *)
Lemma no_completion_message_on_failure_witness :
  stdout (snd (main Samples.rt Samples.unreachable_world Samples.fresh)) =
    stdout Samples.fresh +:+ "Enter the URL to analyze: " \/
  stdout (snd (main Samples.rt Samples.unreachable_world Samples.fresh)) =
    stdout Samples.fresh +:+ console_start (stdin_line Samples.unreachable_world).
Proof.
  apply (no_completion_message_on_failure
           Samples.rt Samples.unreachable_world Samples.fresh
           (FetchError (PyExn "ConnectionError" "example.org: name or service not known"))).
  vm_compute. reflexivity.
Defined.

(** X14 on the record of Paris without an [articleBody]. *)
Lemma render_failure_leaves_partial_report_witness :
  In Edge.torn_record (entities_data Edge.torn_analysis) /\
  exists (x : pyexn) (done rest : list entity_info) (failing : entity_info)
         (blocks : list string) (partial : string),
    fst (main Samples.rt Edge.torn_world Samples.fresh) = Raise x /\
    Permutation (done ++ failing :: rest) (entities_data Edge.torn_analysis) /\
    Forall2 (block_of Samples.rt) done blocks /\
    write_entity Samples.rt failing "" = (Raise x, partial) /\
    files (snd (main Samples.rt Edge.torn_world Samples.fresh)) !! report_file =
      Some (report_header (url Edge.torn_analysis) (entity_count Edge.torn_analysis) +:+
            str_concat blocks +:+ partial).
Proof.
  assert (H : In Edge.torn_record (entities_data Edge.torn_analysis))
    by (left; reflexivity).
  split; [exact H|].
  apply (render_failure_leaves_partial_report
           Samples.rt Edge.torn_world Samples.fresh Edge.torn_analysis
           Edge.torn_record Edge.torn_items).
  - reflexivity.
  - vm_compute. reflexivity.
  - exact H.
  - reflexivity.
  - reflexivity.
Defined.

(** X15 on the same record. *)
Lemma ill_shaped_record_raises_witness :
  kg_well_formed (Some (JObj Edge.torn_items)) = false /\
  exists x out,
    write_knowledge_graph Samples.rt (JObj Edge.torn_items) "" =
    (Raise x, "" +:+ "Knowledge Graph Information:" +:+ nl +:+ out).
Proof.
  split; [reflexivity|].
  apply (ill_shaped_record_raises Samples.rt Edge.torn_items "").
  reflexivity.
Defined.


(** X17 on the run of the example, from a process with an older report. *)
Lemma report_of_well_formed_analysis_witness :
  exists shown : list entity_info,
    Permutation shown (entities_data Samples.paris_analysis) /\
    StronglySorted (fun a b => float_ge (salience a) (salience b) = true) shown /\
    (forall v,
        List.filter (fun d => float_eq (salience d) v) shown =
        List.filter (fun d => float_eq (salience d) v)
          (entities_data Samples.paris_analysis)) /\
    files (snd (main Samples.rt Samples.paris_world Samples.used)) =
      <[report_file :=
          report_header (url Samples.paris_analysis)
            (entity_count Samples.paris_analysis) +:+
          str_concat (map (spec_block Samples.rt) shown)]> (files Samples.used).
Proof.
  apply (report_of_well_formed_analysis
           Samples.rt Samples.paris_world Samples.used
           (snd (main Samples.rt Samples.paris_world Samples.used))
           Samples.paris_analysis).
  - vm_compute. reflexivity.
  - vm_compute. reflexivity.
  - repeat constructor.
  - repeat constructor.
Defined.
